(** * porthos-go: an RPC layer over an AMQP broker

    A shallow embedding of the call builder (packages [porthos] and
    [client]), of the server's request dispatch and extension pipeline, and
    of the two response writers, followed by the properties the
    specification states about them.

    Conventions.
    - [time.Duration] is an [int64] count of nanoseconds; it is a [Z] here.
      The only arithmetic the code does on it is a comparison with zero and
      a division by [time.Millisecond], neither of which can overflow.
    - The broker, its channels and the logger are collaborators outside the
      code base.  What they are told to do is recorded, in order, in the
      [trace] of the [World]; whether a publish or a channel opening fails
      is decided by the channel and broker values themselves.
    - A Go function with side effects is a function [World -> Outcome A *
      World]; a panic is an [Outcome] of its own. *)

From stdpp Require Import base gmap strings list pretty.
From Stdlib Require Import ZArith Lia.

Open Scope Z_scope.

(* ===================================================================== *)
(** ** Values shared by client and server *)
(* ===================================================================== *)

(** [[]byte]. *)
Definition bytes := list Byte.byte.

(** [time.Millisecond], in nanoseconds. *)
Definition Millisecond : Z := 1000000.

(** [strconv.FormatInt(n, 10)]. *)
Definition FormatInt10 (n : Z) : string := pretty n.

(** Package [errors]: the two sentinel values, plus the errors that come
    from elsewhere ([errors.New] at a call site, the amqp library, the JSON
    encoder). *)
Inductive error : Type :=
  | ErrTimedOut
  | ErrNilPublishChannel
  | errors_New (msg : string)
  | amqp_Error (msg : string)
  | json_Error (msg : string).

(** The [Error()] method. *)
Definition Error (e : error) : string :=
  match e with
  | ErrTimedOut => "timed out"
  | ErrNilPublishChannel => "No AMQP channel to publish the response to."
  | errors_New msg => msg
  | amqp_Error msg => msg
  | json_Error msg => msg
  end.

(** The values an [amqp.Table] (a [map[string]interface{}]) holds that the
    code distinguishes: strings, the [int16] status code, anything else. *)
Inductive HeaderValue : Type :=
  | VString (s : string)
  | VInt16 (n : Z)
  | VOther (tag : string).

(** [amqp.Table]. *)
Abbreviation Table := (gmap string HeaderValue).

(** [amqp.Publishing], the fields the code fills in. *)
Record Publishing : Type := mkPublishing {
  Headers : Table;
  Expiration : string;
  ContentType : string;
  CorrelationId : string;
  ReplyTo : string;
  Body : bytes
}.

(** [amqp.Delivery], the fields the code reads. *)
Record Delivery : Type := mkDelivery {
  d_Headers : Table;
  d_ContentType : string;
  d_CorrelationId : string;
  d_ReplyTo : string;
  d_DeliveryTag : N;
  d_Body : bytes
}.

(** [*amqp.Channel]: an identity and what [Publish] answers for a routing
    key and a message ([None] is a [nil] error). *)
Record Channel : Type := mkChannel {
  chan_id : nat;
  publish_result : string -> Publishing -> option error
}.

(** [*Broker]: [openChannel] hands out a channel or fails. *)
Record Broker : Type := mkBroker {
  openChannel_result : Channel + error
}.

(** [amqp.Queue]. *)
Record Queue : Type := mkQueue { Name : string }.

(** Server-side [Request] ([request{serviceName, methodName, contentType,
    body}]). *)
Record Request : Type := mkRequest {
  req_serviceName : string;
  req_method : string;
  req_contentType : string;
  req_body : bytes
}.

(** Modelled from the spec: the [Headers] type of a [Response] is not in the
    sources; only its [Set] and [asMap] methods are used.  The spec calls it
    a mapping of header name to value. *)
Record ResponseHeaders : Type := mkHeaders { asMap : Table }.

Definition Headers_Set (k : string) (v : HeaderValue) (h : ResponseHeaders)
  : ResponseHeaders :=
  {| asMap := <[k := v]> (asMap h) |}.

(** Server-side [Response]: body, content type, [int16] status code and
    (in the later writer) a header set. *)
Record Response : Type := mkResponse {
  res_content : bytes;
  res_contentType : string;
  res_statusCode : Z;
  res_headers : ResponseHeaders
}.

Definition GetStatusCode (r : Response) : Z := res_statusCode r.

(** Client-side response as delivered through a Slot. *)
Record ClientResponse : Type := mkClientResponse {
  cr_Content : bytes;
  cr_ContentType : string;
  cr_Headers : Table
}.

(* ===================================================================== *)
(** ** The world: broker trace, clock, Slot registry, extension list *)
(* ===================================================================== *)

Inductive LogLevel : Type := LDebug | LInfo | LError.

(** Modelled from the spec: the Slot type is not in the sources.  The spec
    gives it a correlation ID and a creation time; its reply channel is
    represented by the [Arrival] a [Sync] call is run against. *)
Record Slot : Type := mkSlot {
  correlationID : string;
  createdAt : Z
}.

Definition getCorrelationID (s : Slot) : string := correlationID s.

(** What value a panic carries. *)
Inductive PanicValue : Type :=
  | PanicError (e : error)
  | PanicTypeAssertion (key : string)
  | PanicNilDereference
  | PanicUser (msg : string).

Inductive Outcome (A : Type) : Type :=
  | Ret (a : A)
  | Panic (v : PanicValue).
Arguments Ret {A} a.
Arguments Panic {A} v.

(** User code (a method handler, an extension hook) is opaque to the
    library: it returns or panics, and it takes some time.  The time is
    read from Go's monotonic clock, which never runs backwards, so it is a
    natural number of nanoseconds. *)
Definition User (A : Type) : Type := Outcome A * N.

(** An [Extension], as the server uses it: [IncomingRequest(req)] and
    [OutgoingResponse(req, res, elapsed, statusCode)].  The latter receives
    the Response itself (an interface value that aliases the handler's
    Response), so it may hand back a modified one.  [ext_name] stands for
    the identity of the extension object. *)
Record Extension : Type := mkExtension {
  ext_name : string;
  IncomingRequest : Request -> User unit;
  OutgoingResponse : Request -> Response -> Z -> Z -> User Response
}.

Inductive Event : Type :=
  | EvPublish (ch : nat) (exchange key : string) (mandatory immediate : bool)
      (msg : Publishing)
  | EvAck (tag : N) (multiple : bool)
  | EvReject (tag : N) (requeue : bool)
  | EvClose (ch : nat)
  | EvLog (level : LogLevel) (format : string) (args : list string)
  | EvIncomingRequest (ext : string) (req : Request)
  | EvHandler (req : Request) (res : Response)
  | EvOutgoingResponse (ext : string) (req : Request) (res : Response)
      (elapsed : Z) (statusCode : Z).

Record World : Type := mkWorld {
  trace : list Event;
  clock : Z;
  slots : gmap string Slot;
  extensions : list Extension
}.

Definition M (A : Type) : Type := World -> Outcome A * World.

Definition ret {A} (a : A) : M A := fun w => (Ret a, w).

Definition bind {A B} (m : M A) (k : A -> M B) : M B :=
  fun w =>
    match m w with
    | (Ret a, w') => k a w'
    | (Panic v, w') => (Panic v, w')
    end.

Definition panic {A} (v : PanicValue) : M A := fun w => (Panic v, w).

Notation "x <- m ;; k" := (bind m (fun x => k))
  (at level 100, m at next level, right associativity).
Notation "m ;;; k" := (bind m (fun _ => k))
  (at level 100, right associativity).

(** [defer d] followed by [body]: [d] runs when [body] is left, also when
    [body] panics; a panic of [d] replaces the result. *)
Definition defer {A} (d : M unit) (body : M A) : M A :=
  fun w =>
    match body w with
    | (o, w1) =>
        match d w1 with
        | (Ret _, w2) => (o, w2)
        | (Panic v, w2) => (Panic v, w2)
        end
    end.

Definition emit (e : Event) : M unit :=
  fun w => (Ret tt, mkWorld (trace w ++ [e]) (clock w) (slots w) (extensions w)).

Definition advance (n : N) : M unit :=
  fun w => (Ret tt, mkWorld (trace w) (clock w + Z.of_N n) (slots w) (extensions w)).

(** [time.Now()] and [time.Since(t)], on the monotonic clock. *)
Definition time_Now : M Z := fun w => (Ret (clock w), w).
Definition time_Since (started : Z) : M Z := fun w => (Ret (clock w - started), w).

(** Running user code: time passes, then it has returned or panicked. *)
Definition run_user {A} (u : User A) : M A :=
  advance (snd u) ;;;
  match fst u with
  | Ret a => ret a
  | Panic v => panic v
  end.

Definition log (lvl : LogLevel) (format : string) (args : list string) : M unit :=
  emit (EvLog lvl format args).

(** [ch.Publish(exchange, key, mandatory, immediate, msg)]; a [nil] channel
    is dereferenced by the amqp library. *)
Definition Publish (ch : option Channel) (exchange key : string)
    (mandatory immediate : bool) (msg : Publishing) : M (option error) :=
  match ch with
  | Some c =>
      emit (EvPublish (chan_id c) exchange key mandatory immediate msg) ;;;
      ret (publish_result c key msg)
  | None => panic PanicNilDereference
  end.

(** [ch.Close()].  On a [nil] channel the amqp library dereferences its
    receiver. *)
Definition Close (ch : option Channel) : M unit :=
  match ch with
  | Some c => emit (EvClose (chan_id c))
  | None => panic PanicNilDereference
  end.

(** [broker.openChannel()]: the pair [(ch, err)]. *)
Definition openChannel (b : Broker) : M (option Channel * option error) :=
  match openChannel_result b with
  | inl ch => ret (Some ch, None)
  | inr e => ret (None, Some e)
  end.

(** [d.Ack(multiple)] and [d.Reject(requeue)]; their error results are
    dropped by every caller. *)
Definition Ack (d : Delivery) (multiple : bool) : M unit :=
  emit (EvAck (d_DeliveryTag d) multiple).
Definition Reject (d : Delivery) (requeue : bool) : M unit :=
  emit (EvReject (d_DeliveryTag d) requeue).

(** Modelled from the spec: [NewSlot] / [Client.makeNewSlot] are not in the
    sources.  Per the spec, creating a Slot "generates a fresh unique token
    and registers the Slot" in the registry that maps correlation IDs to
    Slots. *)
Definition makeNewSlot : M Slot :=
  fun w =>
    let id := fresh (dom (slots w)) in
    let s := mkSlot id (clock w) in
    (Ret s, mkWorld (trace w) (clock w) (<[id := s]> (slots w)) (extensions w)).

(** Modelled from the spec: [Slot.Dispose] is not in the sources.  Per the
    spec, disposing "removes the entry" of the Slot from the registry. *)
Definition Dispose (s : Slot) : M unit :=
  fun w =>
    (Ret tt, mkWorld (trace w) (clock w) (delete (correlationID s) (slots w))
               (extensions w)).

(** A Slot is live when the registry maps its correlation ID to it. *)
Definition registered (id : string) (w : World) : Prop := is_Some (slots w !! id).

(* ===================================================================== *)
(** ** The call builder, package [porthos] (call.go) *)
(* ===================================================================== *)

(** [*Client], the fields the call builder reads.  The Slot registry the
    spec gives the client is the [slots] component of the [World]. *)
Record Client : Type := mkClient {
  broker : Broker;
  serviceName : string;
  defaultTTL : Z;
  channel : option Channel;
  responseQueue : Queue
}.

Record call : Type := mkCall {
  client : Client;
  timeout : Z;
  method : string;
  body : bytes;
  contentType : string
}.

Definition newCall (cl : Client) (m : string) : call :=
  {| client := cl; timeout := 0; method := m; body := []; contentType := "" |}.

Definition WithTimeout (c : call) (t : Z) : call :=
  {| client := client c; timeout := t; method := method c; body := body c;
     contentType := contentType c |}.

Definition WithBody (c : call) (b : bytes) : call :=
  {| client := client c; timeout := timeout c; method := method c; body := b;
     contentType := "application/octet-stream" |}.

Definition WithBodyContentType (c : call) (b : bytes) (ct : string) : call :=
  {| client := client c; timeout := timeout c; method := method c; body := b;
     contentType := ct |}.

Definition getTimeout (c : call) : Z :=
  if 0 <? timeout c then timeout c else defaultTTL (client c).

(** [int64(t / time.Millisecond)]; Go's integer division truncates. *)
Definition getTimeoutMilliseconds (c : call) : Z :=
  let t := defaultTTL (client c) in
  let t := if 0 <? timeout c then timeout c else t in
  Z.quot t Millisecond.

(** The request message [Async] builds. *)
Definition request_message (c : call) (expiration correlationID : string)
  : Publishing :=
  {| Headers := {[ "X-Method" := VString (method c) ]};
     Expiration := expiration;
     ContentType := contentType c;
     CorrelationId := correlationID;
     ReplyTo := Name (responseQueue (client c));
     Body := body c |}.

Definition NewSlot : M Slot := makeNewSlot.

Definition Async (c : call) : M (option Slot * option error) :=
  res <- NewSlot ;;
  let correlationID := getCorrelationID res in
  r <- openChannel (broker (client c)) ;;
  match snd r with
  | Some err => ret (None, Some err)
  | None =>
      let ch := fst r in
      defer (Close ch)
        (err <- Publish ch "" (serviceName (client c)) false false
                  (request_message c (FormatInt10 (getTimeoutMilliseconds c))
                     correlationID) ;;
         log LInfo
           "Published method '%s' in '%s'. Expecting response in queue '%s' and slot '%d'"
           [method c; serviceName (client c); Name (responseQueue (client c));
            correlationID] ;;;
         match err with
         | Some e => ret (None, Some e)
         | None => ret (Some res, None)
         end)
  end.

(** What the reply consumer does to the Slot a [Sync] call waits on: no
    reply ever, or a reply [t] nanoseconds after the wait began. *)
Inductive Arrival : Type :=
  | NoReply
  | ReplyAfter (t : N) (r : ClientResponse).

(** The [select] of [Sync]: the Slot's response channel against
    [time.After(d)].  The timer fires after [d] (at once when [d <= 0]).
    When both are ready at the same instant Go picks one at random: [tie]
    is that choice. *)
Definition select_response_or_timer (a : Arrival) (d : Z) (tie : bool)
  : M (option ClientResponse * option error) :=
  let timer := Z.to_N d in
  match a with
  | NoReply => advance timer ;;; ret (None, Some ErrTimedOut)
  | ReplyAfter t r =>
      if ((t <? timer) || ((t =? timer) && tie))%N
      then advance t ;;; ret (Some r, None)
      else advance timer ;;; ret (None, Some ErrTimedOut)
  end.

Definition Sync (c : call) (a : Arrival) (tie : bool)
  : M (option ClientResponse * option error) :=
  r <- Async c ;;
  match snd r with
  | Some err => ret (None, Some err)
  | None =>
      match fst r with
      | None => panic PanicNilDereference
      | Some slot =>
          defer (Dispose slot) (select_response_or_timer a (getTimeout c) tie)
      end
  end.

Definition void_message (c : call) : Publishing :=
  {| Headers := {[ "X-Method" := VString (method c) ]};
     Expiration := "";
     ContentType := contentType c;
     CorrelationId := "";
     ReplyTo := "";
     Body := body c |}.

Definition Void (c : call) : M (option error) :=
  err <- Publish (channel (client c)) "" (serviceName (client c)) false false
           (void_message c) ;;
  match err with
  | Some e => ret (Some e)
  | None => ret None
  end.

(* ===================================================================== *)
(** ** The call builder, package [client] (the second file of call.go) *)
(* ===================================================================== *)

(** [newCall], [WithTimeout], [WithBody], [getTimeout] and [Void] are the
    same text in both packages; [getTimeoutInt64] is
    [getTimeoutMilliseconds] under another name. *)
Definition client_getTimeout (c : call) : Z :=
  if 0 <? timeout c then timeout c else defaultTTL (client c).

Definition client_getTimeoutInt64 (c : call) : Z :=
  let t := defaultTTL (client c) in
  let t := if 0 <? timeout c then timeout c else t in
  Z.quot t Millisecond.

Definition client_Async (c : call) : M (option Slot * option error) :=
  res <- makeNewSlot ;;
  let correlationID := getCorrelationID res in
  err <- Publish (channel (client c)) "" (serviceName (client c)) false false
           (request_message c (FormatInt10 (client_getTimeoutInt64 c))
              correlationID) ;;
  log LInfo
    "Published method '%s' in '%s'. Expecting response in queue '%s' and slot '%d'"
    [method c; serviceName (client c); Name (responseQueue (client c));
     correlationID] ;;;
  match err with
  | Some e => ret (None, Some e)
  | None => ret (Some res, None)
  end.

Definition client_Sync (c : call) (a : Arrival) (tie : bool)
  : M (option ClientResponse * option error) :=
  r <- client_Async c ;;
  match snd r with
  | Some err => ret (None, Some err)
  | None =>
      match fst r with
      | None => panic PanicNilDereference
      | Some slot =>
          defer (Dispose slot)
            (select_response_or_timer a (client_getTimeout c) tie)
      end
  end.

(** *** Payloads that go through [encoding/json] *)

Section JSON.

(** Go's [interface{}] values, and [json.Marshal] on them: the bytes and
    error it returns.  [slice_value] boxes the variadic [args] slice. *)
Variable interface : Type.
Variable json_Marshal : interface -> bytes * option error.
Variable slice_value : list interface -> interface.

Definition withJSON (c : call) (i : interface) : M call :=
  let r := json_Marshal i in
  match snd r with
  | Some err => panic (PanicError err)
  | None =>
      ret {| client := client c; timeout := timeout c; method := method c;
             body := fst r; contentType := "application/json" |}
  end.

Definition WithArgs (c : call) (args : list interface) : M call :=
  withJSON c (slice_value args).

(** The map reaches [withJSON] as an interface value. *)
Definition WithMap (c : call) (m : interface) : M call := withJSON c m.

Definition WithStruct (c : call) (i : interface) : M call := withJSON c i.

(** Package [client]: [c.body, _ = json.Marshal(...)]. *)
Definition client_WithArgs (c : call) (args : list interface) : M call :=
  ret {| client := client c; timeout := timeout c; method := method c;
         body := fst (json_Marshal (slice_value args));
         contentType := "application/porthos-args" |}.

Definition client_WithMap (c : call) (m : interface) : M call :=
  ret {| client := client c; timeout := timeout c; method := method c;
         body := fst (json_Marshal m);
         contentType := "application/porthos-map" |}.

End JSON.

(* ===================================================================== *)
(** ** The response writers *)
(* ===================================================================== *)

(** [responseWriter] (errors.go, second file) and [ResponseWriter]
    (server/response.go) have the same three fields. *)
Record responseWriter : Type := mkResponseWriter {
  rw_channel : option Channel;
  rw_autoAck : bool;
  rw_delivery : Delivery
}.

(** The response message of the later writer: the headers are the
    Response's own header set. *)
Definition response_message (rw : responseWriter) (res : Response) : Publishing :=
  {| Headers := asMap (res_headers res);
     Expiration := "";
     ContentType := res_contentType res;
     CorrelationId := d_CorrelationId (rw_delivery rw);
     ReplyTo := "";
     Body := res_content res |}.

(** [res.Headers().Set("statusCode", res.StatusCode())]: the Response with
    its status code entered in its header set. *)
Definition with_status_header (res : Response) : Response :=
  {| res_content := res_content res;
     res_contentType := res_contentType res;
     res_statusCode := res_statusCode res;
     res_headers :=
       Headers_Set "statusCode" (VInt16 (res_statusCode res)) (res_headers res) |}.

(** [responseWriter.Write] (errors.go).  The Response is an interface value
    whose header set is updated in place, so the updated Response is handed
    back next to the error. *)
Definition Write (rw : responseWriter) (res : Response)
  : M (Response * option error) :=
  log LDebug "Sending response to queue '%s'. Slot: '%d'"
    [d_ReplyTo (rw_delivery rw); d_CorrelationId (rw_delivery rw)] ;;;
  match rw_channel rw with
  | None => ret (res, Some ErrNilPublishChannel)
  | Some ch =>
      let res := with_status_header res in
      err <- Publish (Some ch) "" (d_ReplyTo (rw_delivery rw)) false false
               (response_message rw res) ;;
      match err with
      | Some e => ret (res, Some e)
      | None =>
          (if rw_autoAck rw then ret tt
           else
             Ack (rw_delivery rw) false ;;;
             log LDebug "Ack from slot '%d'" [d_CorrelationId (rw_delivery rw)]) ;;;
          ret (res, None)
      end
  end.

(** The response message of the earlier writer: a fresh table holding the
    status code. *)
Definition legacy_response_message (rw : responseWriter) (res : Response)
  : Publishing :=
  {| Headers := {[ "statusCode" := VInt16 (res_statusCode res) ]};
     Expiration := "";
     ContentType := res_contentType res;
     CorrelationId := d_CorrelationId (rw_delivery rw);
     ReplyTo := "";
     Body := res_content res |}.

(** [ResponseWriter.Write] (server/response.go). *)
Definition ResponseWriter_Write (rw : responseWriter) (res : Response)
  : M (option error) :=
  log LInfo "Sending response to queue '%s'. Slot: '%d'"
    [d_ReplyTo (rw_delivery rw); d_CorrelationId (rw_delivery rw)] ;;;
  match rw_channel rw with
  | None => ret (Some (errors_New "No AMQP channel to publish the response to."))
  | Some ch =>
      err <- Publish (Some ch) "" (d_ReplyTo (rw_delivery rw)) false false
               (legacy_response_message rw res) ;;
      match err with
      | Some e => ret (Some e)
      | None =>
          (if rw_autoAck rw then ret tt
           else
             Ack (rw_delivery rw) false ;;;
             log LDebug "Ack from slot '%d'" [d_CorrelationId (rw_delivery rw)]) ;;;
          ret None
      end
  end.

(* ===================================================================== *)
(** ** The server (the third file of call.go) *)
(* ===================================================================== *)

(** [MethodHandler]: a Go function value [func(req Request, res Response)].
    It works on the Response through a reference, so the Response it leaves
    behind is its result. *)
Definition MethodHandler : Type := Request -> Response -> M Response.

(** A handler written by a user of the library. *)
Definition UserHandler : Type := Request -> Response -> User Response.

(** [server], the fields request handling reads.  [extensions] lives in the
    [World]: the closures [Register] builds capture the server by pointer
    and read the field when they run. *)
Record server : Type := mkServer {
  srv_broker : Broker;
  srv_serviceName : string;
  methods : gmap string MethodHandler;
  autoAck : bool
}.

Definition AddExtension (ext : Extension) : M unit :=
  fun w => (Ret tt, mkWorld (trace w) (clock w) (slots w) (extensions w ++ [ext])).

Fixpoint range_IncomingRequest (exts : list Extension) (req : Request) : M unit :=
  match exts with
  | [] => ret tt
  | ext :: rest =>
      emit (EvIncomingRequest (ext_name ext) req) ;;;
      run_user (IncomingRequest ext req) ;;;
      range_IncomingRequest rest req
  end.

Definition pipeThroughIncomingExtensions (req : Request) : M unit :=
  fun w => range_IncomingRequest (extensions w) req w.

Fixpoint range_OutgoingResponse (exts : list Extension) (req : Request)
    (res : Response) (responseTime : Z) : M Response :=
  match exts with
  | [] => ret res
  | ext :: rest =>
      let statusCode := GetStatusCode res in
      emit (EvOutgoingResponse (ext_name ext) req res responseTime statusCode) ;;;
      res' <- run_user (OutgoingResponse ext req res responseTime statusCode) ;;
      range_OutgoingResponse rest req res' responseTime
  end.

Definition pipeThroughOutgoingExtensions (req : Request) (res : Response)
    (responseTime : Z) : M Response :=
  fun w => range_OutgoingResponse (extensions w) req res responseTime w.

(** The closure [Register] stores. *)
Definition effective_handler (handler : UserHandler) : MethodHandler :=
  fun req res =>
    pipeThroughIncomingExtensions req ;;;
    started <- time_Now ;;
    emit (EvHandler req res) ;;;
    res' <- run_user (handler req res) ;;
    responseTime <- time_Since started ;;
    pipeThroughOutgoingExtensions req res' responseTime.

Definition Register (s : server) (m : string) (handler : UserHandler) : server :=
  {| srv_broker := srv_broker s;
     srv_serviceName := srv_serviceName s;
     methods := <[m := effective_handler handler]> (methods s);
     autoAck := autoAck s |}.

(** Modelled from the spec: [newResponse] is not in the sources; the spec
    says the dispatch task "constructs an empty Response". *)
Definition newResponse : Response :=
  {| res_content := []; res_contentType := ""; res_statusCode := 0;
     res_headers := {| asMap := ∅ |} |}.

Definition processRequest (s : server) (d : Delivery) : M unit :=
  match d_Headers d !! "X-Method" with
  | Some (VString methodName) =>
      match methods s !! methodName with
      | Some method =>
          let req := mkRequest (srv_serviceName s) methodName (d_ContentType d)
                       (d_Body d) in
          r <- openChannel (srv_broker s) ;;
          match snd r with
          | Some err =>
              log LError "Error opening channel for response: '%s'" [Error err]
          | None => ret tt
          end ;;;
          let ch := fst r in
          defer (Close ch)
            (let resWriter :=
               {| rw_delivery := d; rw_channel := ch; rw_autoAck := autoAck s |} in
             res <- method req newResponse ;;
             wr <- Write resWriter res ;;
             match snd wr with
             | Some err => log LError "Error writing response: '%s'" [Error err]
             | None => ret tt
             end)
      | None =>
          log LError "Method '%s' not found." [methodName] ;;;
          if autoAck s then ret tt else Reject d false
      end
  | _ => panic (PanicTypeAssertion "X-Method")
  end.

(** The state of the server process. *)
Inductive Process : Type :=
  | Running
  | Crashed (v : PanicValue).

(** [go task]: the task runs in a goroutine of its own.  Nothing in the
    code recovers from a panic, and a panic that leaves a goroutine's
    outermost function ends the program. *)
Definition go (task : M unit) (w : World) : Process * World :=
  match task w with
  | (Ret _, w') => (Running, w')
  | (Panic v, w') => (Crashed v, w')
  end.

(** [for d := range s.requestChannel { go s.processRequest(d) }], with the
    tasks run to completion in arrival order. *)
Fixpoint serve_requests (s : server) (ds : list Delivery) (w : World)
  : Process * World :=
  match ds with
  | [] => (Running, w)
  | d :: rest =>
      match go (processRequest s d) w with
      | (Running, w') => serve_requests s rest w'
      | (Crashed v, w') => (Crashed v, w')
      end
  end.

(* ===================================================================== *)
(** ** Reading a trace *)
(* ===================================================================== *)

(** The messages handed to [Publish], in order. *)
Definition published (t : list Event) : list Publishing :=
  omap (fun e => match e with
                 | EvPublish _ _ _ _ _ msg => Some msg
                 | _ => None
                 end) t.

(** The routing keys of the publishes, in order. *)
Definition routing_keys (t : list Event) : list string :=
  omap (fun e => match e with
                 | EvPublish _ _ key _ _ _ => Some key
                 | _ => None
                 end) t.

(** The delivery tags acknowledged, and those rejected (with the requeue
    flag), in order. *)
Definition acked (t : list Event) : list N :=
  omap (fun e => match e with EvAck tag _ => Some tag | _ => None end) t.

Definition rejected (t : list Event) : list (N * bool) :=
  omap (fun e => match e with
                 | EvReject tag requeue => Some (tag, requeue)
                 | _ => None
                 end) t.

(** The error-level log lines, in order. *)
Definition logged_errors (t : list Event) : list string :=
  omap (fun e => match e with EvLog LError f _ => Some f | _ => None end) t.

(** The calls into user code, in order. *)
Inductive Hook : Type :=
  | HookIncoming (ext : string)
  | HookHandler
  | HookOutgoing (ext : string).

Definition hooks (t : list Event) : list Hook :=
  omap (fun e => match e with
                 | EvIncomingRequest ext _ => Some (HookIncoming ext)
                 | EvHandler _ _ => Some HookHandler
                 | EvOutgoingResponse ext _ _ _ _ => Some (HookOutgoing ext)
                 | _ => None
                 end) t.

(** What [OutgoingResponse] was passed: Response, elapsed time, status. *)
Definition outgoing_arguments (t : list Event) : list (Response * Z * Z) :=
  omap (fun e => match e with
                 | EvOutgoingResponse _ _ res elapsed status =>
                     Some (res, elapsed, status)
                 | _ => None
                 end) t.

(** What the extension pipeline expects of user code: a hook returns, and
    (the spec: a Response is "mutated only by the handler") an outgoing
    hook leaves the status code of the Response alone. *)
Definition incoming_returns (ext : Extension) : Prop :=
  forall req, fst (IncomingRequest ext req) = Ret tt.

Definition outgoing_returns (ext : Extension) : Prop :=
  forall req res elapsed status,
    exists res', fst (OutgoingResponse ext req res elapsed status) = Ret res'.

Definition outgoing_keeps_status (ext : Extension) : Prop :=
  forall req res elapsed status res',
    fst (OutgoingResponse ext req res elapsed status) = Ret res' ->
    GetStatusCode res' = GetStatusCode res.

(* ===================================================================== *)
(** ** Concrete brokers, clients and values used in the examples *)
(* ===================================================================== *)

Definition empty_world : World := mkWorld [] 0 ∅ [].

Definition open_channel : Channel := mkChannel 1 (fun _ _ => None).

Definition closed_channel : Channel :=
  mkChannel 2 (fun _ _ => Some (amqp_Error "channel/connection is not open")).

Definition healthy_client : Client :=
  mkClient (mkBroker (inl open_channel)) "calc" (2 * 1000 * Millisecond)
    (Some open_channel) (mkQueue "amq.gen-1").

Definition broken_client : Client :=
  mkClient (mkBroker (inl closed_channel)) "calc" (2 * 1000 * Millisecond)
    (Some closed_channel) (mkQueue "amq.gen-1").

(** A client configured with a default TTL of 500 microseconds. *)
Definition hasty_client : Client :=
  mkClient (mkBroker (inl open_channel)) "calc" 500000
    (Some open_channel) (mkQueue "amq.gen-1").

(** A small universe of Go values: a [chan int], and slices of values.
    [encoding/json] refuses channels and encodes a slice as a JSON array. *)
#[warnings="-register-all"] Inductive GoValue : Type :=
  | chan_int
  | slice_of (l : list GoValue).

Fixpoint has_chan (v : GoValue) : bool :=
  match v with
  | chan_int => true
  | slice_of l => existsb has_chan l
  end.

Fixpoint json_text (v : GoValue) : bytes :=
  match v with
  | chan_int => []
  | slice_of l =>
      Byte.x5b ::
      (match map json_text l with
       | [] => []
       | x :: xs => x ++ concat (map (fun y => Byte.x2c :: y) xs)
       end) ++ [Byte.x5d]
  end.

Definition sample_Marshal (v : GoValue) : bytes * option error :=
  if has_chan v then ([], Some (json_Error "json: unsupported type: chan int"))
  else (json_text v, None).

(** A server with auto-ack off and one method, "add", whose handler
    answers 200 after 3 ms; two extensions that observe and take 1 ms. *)
Definition add_handler : UserHandler :=
  fun _ res =>
    (Ret (mkResponse (res_content res) "application/json" 200 (res_headers res)),
     3000000%N).

Definition observer (name : string) : Extension :=
  {| ext_name := name;
     IncomingRequest := fun _ => (Ret tt, 1000000%N);
     OutgoingResponse := fun _ res _ _ => (Ret res, 1000000%N) |}.

Definition calc_server : server :=
  Register (mkServer (mkBroker (inl open_channel)) "calc" ∅ false)
    "add" add_handler.

Definition observed_world : World :=
  mkWorld [] 0 ∅ [observer "metrics"; observer "access-log"].

Definition add_request : Request := mkRequest "calc" "add" "application/json" [].

(** Deliveries: one for "add", one for a method nobody registered, one
    without the X-Method header, one whose X-Method is a number. *)
Definition delivery_add : Delivery :=
  mkDelivery {[ "X-Method" := VString "add" ]} "application/json" "17"
    "amq.gen-1" 1 [].

Definition delivery_unknown : Delivery :=
  mkDelivery {[ "X-Method" := VString "sub" ]} "application/json" "18"
    "amq.gen-1" 2 [].

Definition delivery_no_method : Delivery :=
  mkDelivery ∅ "application/json" "19" "amq.gen-1" 3 [].

Definition delivery_numeric_method : Delivery :=
  mkDelivery {[ "X-Method" := VInt16 7 ]} "application/json" "20" "amq.gen-1" 4 [].

Definition ok_response : Response :=
  mkResponse [] "application/json" 200 (mkHeaders ∅).

Definition bound_writer : responseWriter :=
  mkResponseWriter (Some open_channel) false delivery_add.

Definition unbound_writer : responseWriter :=
  mkResponseWriter None false delivery_add.

(* ===================================================================== *)
(** ** The Response setters of server/response.go *)
(* ===================================================================== *)

(** The channels closed, in order. *)
Definition closed_channels (t : list Event) : list nat :=
  omap (fun e => match e with EvClose ch => Some ch | _ => None end) t.

(** [Response.Raw(statusCode, contentType, content)].  A [[]byte] argument
    may be [nil] ([None]) or a slice, possibly empty. *)
Definition Response_Raw (r : Response) (statusCode : Z) (ct : string)
    (content : option bytes) : Outcome Response :=
  match content with
  | None => Panic (PanicUser "Response content is empty")
  | Some b =>
      Ret {| res_content := b; res_contentType := ct;
             res_statusCode := statusCode; res_headers := res_headers r |}
  end.

(** [Response.Empty(statusCode)]. *)
Definition Response_Empty (r : Response) (statusCode : Z) : Response :=
  {| res_content := res_content r; res_contentType := res_contentType r;
     res_statusCode := statusCode; res_headers := res_headers r |}.

Section ResponseJSON.

Variable interface : Type.
Variable json_Marshal : interface -> bytes * option error.

(** [Response.JSON(statusCode, content)]; [None] is the [nil] interface. *)
Definition Response_JSON (r : Response) (statusCode : Z)
    (content : option interface) : Outcome Response :=
  match content with
  | None => Panic (PanicUser "Response content is empty")
  | Some v =>
      let m := json_Marshal v in
      match snd m with
      | Some err => Panic (PanicError err)
      | None =>
          Ret {| res_content := fst m; res_contentType := "application/json";
                 res_statusCode := statusCode; res_headers := res_headers r |}
      end
  end.

End ResponseJSON.

(* ===================================================================== *)
(** ** Topology, construction and specs of the server *)
(* ===================================================================== *)

(** The fields of [server] that [setupTopology] assigns.  The request
    channel is the sequence of deliveries it will yield; [None] is a [nil]
    channel. *)
Record Topology : Type := mkTopology {
  topo_channel : option Channel;
  requestChannel : option (list Delivery);
  topologySet : bool
}.

Record Options : Type := mkOptions { AutoAck : bool }.

Section TopologySetup.

(** What the broker answers to [QueueDeclare(name, durable, autoDelete,
    exclusive, noWait, nil)] and to [Consume(queue, consumer, autoAck,
    exclusive, noLocal, noWait, nil)] on a channel: the error of the
    former, the pair of results of the latter. *)
Variable QueueDeclare_error :
  Channel -> string -> bool -> bool -> bool -> bool -> option error.
Variable Consume_result :
  Channel -> string -> string -> bool -> bool -> bool -> bool ->
  option (list Delivery) * option error.

(** [setupTopology].  The mutex serialises calls and has no other effect. *)
Definition setupTopology (s : server) (t : Topology)
  : M (Topology * option error) :=
  r <- openChannel (srv_broker s) ;;
  let t := mkTopology (fst r) (requestChannel t) (topologySet t) in
  match snd r with
  | Some err => ret (t, Some err)
  | None =>
      match fst r with
      | None => panic PanicNilDereference
      | Some ch =>
          match QueueDeclare_error ch (srv_serviceName s) true false false false with
          | Some err => Close (Some ch) ;;; ret (t, Some err)
          | None =>
              let c := Consume_result ch (srv_serviceName s) "" (autoAck s)
                         false false false in
              let t := mkTopology (Some ch) (fst c) (topologySet t) in
              match snd c with
              | Some err => Close (Some ch) ;;; ret (t, Some err)
              | None => ret (mkTopology (Some ch) (fst c) true, None)
              end
          end
      end
  end.

(** [NewServer], up to its return; the goroutine it starts before
    returning only acts when the broker signals a reconnection. *)
Definition NewServer (b : Broker) (name : string) (options : Options)
  : M (option (server * Topology) * option error) :=
  let s := mkServer b name ∅ (AutoAck options) in
  r <- setupTopology s (mkTopology None None false) ;;
  match snd r with
  | Some err => ret (None, Some err)
  | None => ret (Some (s, fst r), None)
  end.

End TopologySetup.

Section Specs.

(** [Spec] is not in the sources; the server only stores it.  The [specs]
    map of the server is kept beside the [server] record. *)
Variable Spec : Type.

Definition RegisterWithSpec (s : server) (specs : gmap string Spec)
    (m : string) (handler : UserHandler) (spec : Spec)
  : server * gmap string Spec :=
  (Register s m handler, <[m := spec]> specs).

Definition GetSpecs (specs : gmap string Spec) : gmap string Spec := specs.

End Specs.

Definition GetServiceName (s : server) : string := srv_serviceName s.

(** The broker's part in a call: a published message reaches the consumer
    of the queue as a delivery with the same headers and properties, under
    a delivery tag the broker chooses. *)
Definition deliver (msg : Publishing) (tag : N) : Delivery :=
  {| d_Headers := Headers msg;
     d_ContentType := ContentType msg;
     d_CorrelationId := CorrelationId msg;
     d_ReplyTo := ReplyTo msg;
     d_DeliveryTag := tag;
     d_Body := Body msg |}.

(** More values for the examples: a handler that panics, an extension
    whose incoming hook panics, a broker that is down. *)
Definition failing_handler : UserHandler :=
  fun _ _ => (Panic (PanicUser "division by zero"), 1000000%N).

Definition failing_extension (name : string) : Extension :=
  {| ext_name := name;
     IncomingRequest := fun _ => (Panic (PanicUser "hook failed"), 1000000%N);
     OutgoingResponse := fun _ res _ _ => (Ret res, 1000000%N) |}.

Definition down_broker : Broker := mkBroker (inr (amqp_Error "connection refused")).

Definition offline_client : Client :=
  mkClient down_broker "calc" (2 * 1000 * Millisecond) (Some closed_channel)
    (mkQueue "amq.gen-1").

Definition declare_ok
  : Channel -> string -> bool -> bool -> bool -> bool -> option error :=
  fun _ _ _ _ _ _ => None.

Definition declare_refused
  : Channel -> string -> bool -> bool -> bool -> bool -> option error :=
  fun _ _ _ _ _ _ => Some (amqp_Error "access refused").

Definition consume_ok
  : Channel -> string -> string -> bool -> bool -> bool -> bool ->
    option (list Delivery) * option error :=
  fun _ _ _ _ _ _ _ => (Some [delivery_add], None).

Definition consume_refused
  : Channel -> string -> string -> bool -> bool -> bool -> bool ->
    option (list Delivery) * option error :=
  fun _ _ _ _ _ _ _ => (None, Some (amqp_Error "not found")).

(* ===================================================================== *)
(** ** Properties: the monad and the registry *)
(* ===================================================================== *)

Ltac run_M :=
  unfold Publish, log, Ack, Reject, Close, openChannel, run_user, time_Now,
    time_Since, defer in *;
  unfold emit, advance, bind, ret, panic in *;
  simpl in *.

Lemma makeNewSlot_run (w : World) :
  makeNewSlot w =
    (Ret (mkSlot (fresh (dom (slots w))) (clock w)),
     mkWorld (trace w) (clock w)
       (<[fresh (dom (slots w)) := mkSlot (fresh (dom (slots w))) (clock w)]> (slots w))
       (extensions w)).
Proof. reflexivity. Qed.

Lemma makeNewSlot_fresh (w : World) (s : Slot) :
  fst (makeNewSlot w) = Ret s -> slots w !! correlationID s = None.
Proof.
  rewrite makeNewSlot_run. simpl. intros [= <-]. simpl.
  apply not_elem_of_dom, is_fresh.
Qed.

Lemma makeNewSlot_registers (w : World) (s : Slot) :
  fst (makeNewSlot w) = Ret s ->
  slots (snd (makeNewSlot w)) !! correlationID s = Some s.
Proof.
  rewrite makeNewSlot_run. simpl. intros [= <-]. simpl.
  apply lookup_insert_eq.
Qed.

Lemma getTimeout_set (c : call) : 0 < timeout c -> getTimeout c = timeout c.
Proof. unfold getTimeout. intros H. apply Z.ltb_lt in H. now rewrite H. Qed.

Lemma getTimeout_unset (c : call) :
  timeout c <= 0 -> getTimeout c = defaultTTL (client c).
Proof. unfold getTimeout. intros H. apply Z.ltb_ge in H. now rewrite H. Qed.

Lemma getTimeoutMilliseconds_quot (c : call) :
  getTimeoutMilliseconds c = Z.quot (getTimeout c) Millisecond.
Proof. unfold getTimeoutMilliseconds, getTimeout. now destruct (0 <? timeout c). Qed.

Lemma client_getTimeout_eq (c : call) : client_getTimeout c = getTimeout c.
Proof. reflexivity. Qed.

Lemma client_getTimeoutInt64_eq (c : call) :
  client_getTimeoutInt64 c = getTimeoutMilliseconds c.
Proof. reflexivity. Qed.

(** What [client.Async] does, step by step. *)
Lemma client_Async_run (c : call) (w : World) (ch : Channel) :
  channel (client c) = Some ch ->
  let slot := mkSlot (fresh (dom (slots w))) (clock w) in
  let msg := request_message c (FormatInt10 (client_getTimeoutInt64 c))
               (correlationID slot) in
  client_Async c w =
    (Ret (match publish_result ch (serviceName (client c)) msg with
          | Some e => (None, Some e)
          | None => (Some slot, None)
          end),
     mkWorld
       (trace w ++
        [EvPublish (chan_id ch) "" (serviceName (client c)) false false msg;
         EvLog LInfo
           "Published method '%s' in '%s'. Expecting response in queue '%s' and slot '%d'"
           [method c; serviceName (client c); Name (responseQueue (client c));
            correlationID slot]])
       (clock w)
       (<[correlationID slot := slot]> (slots w))
       (extensions w)).
Proof.
  intros Hch. unfold client_Async. run_M. rewrite Hch. simpl.
  rewrite <- app_assoc. simpl.
  destruct (publish_result ch _ _); reflexivity.
Qed.

(** What [porthos.Async] does once the broker has handed out a channel. *)
Lemma Async_run (c : call) (w : World) (ch : Channel) :
  openChannel_result (broker (client c)) = inl ch ->
  let slot := mkSlot (fresh (dom (slots w))) (clock w) in
  let msg := request_message c (FormatInt10 (getTimeoutMilliseconds c))
               (correlationID slot) in
  Async c w =
    (Ret (match publish_result ch (serviceName (client c)) msg with
          | Some e => (None, Some e)
          | None => (Some slot, None)
          end),
     mkWorld
       (trace w ++
        [EvPublish (chan_id ch) "" (serviceName (client c)) false false msg;
         EvLog LInfo
           "Published method '%s' in '%s'. Expecting response in queue '%s' and slot '%d'"
           [method c; serviceName (client c); Name (responseQueue (client c));
            correlationID slot];
         EvClose (chan_id ch)])
       (clock w)
       (<[correlationID slot := slot]> (slots w))
       (extensions w)).
Proof.
  intros Hch. unfold Async, NewSlot. run_M. rewrite Hch. simpl.
  destruct (publish_result ch _ _); simpl; rewrite <- !app_assoc; reflexivity.
Qed.

(** [porthos.Async] when the broker refuses a channel. *)
Lemma Async_no_channel (c : call) (w : World) (e : error) :
  openChannel_result (broker (client c)) = inr e ->
  let slot := mkSlot (fresh (dom (slots w))) (clock w) in
  Async c w =
    (Ret (None, Some e),
     mkWorld (trace w) (clock w) (<[correlationID slot := slot]> (slots w))
       (extensions w)).
Proof.
  intros Hch. unfold Async, NewSlot. run_M. rewrite Hch. reflexivity.
Qed.

Lemma published_app (t1 t2 : list Event) :
  published (t1 ++ t2) = published t1 ++ published t2.
Proof. apply omap_app. Qed.

Lemma select_run (a : Arrival) (d : Z) (tie : bool) (w : World) :
  exists (r : option ClientResponse * option error) (waited : N),
    select_response_or_timer a d tie w =
      (Ret r, mkWorld (trace w) (clock w + Z.of_N waited) (slots w) (extensions w)) /\
    ((a = NoReply \/ exists t resp, a = ReplyAfter t resp /\ (Z.to_N d < t)%N) ->
       r = (None, Some ErrTimedOut) /\ Z.of_N waited = Z.max 0 d) /\
    (forall t resp, a = ReplyAfter t resp -> (t < Z.to_N d)%N ->
       r = (Some resp, None) /\ waited = t).
Proof.
  unfold select_response_or_timer. destruct a as [|t resp].
  - exists (None, Some ErrTimedOut), (Z.to_N d). run_M. split; [reflexivity|].
    split; [intros _; split; [reflexivity|lia]|]. intros ? ? [=].
  - destruct ((t <? Z.to_N d)%N || ((t =? Z.to_N d)%N && tie)) eqn:E.
    + exists (Some resp, None), t. run_M. split; [reflexivity|]. split.
      * intros [[=]|(t' & r' & [= <- <-] & Hlt)].
        apply orb_true_iff in E as [E|E].
        -- apply N.ltb_lt in E. lia.
        -- apply andb_true_iff in E as [E _]. apply N.eqb_eq in E. lia.
      * intros t' r' [= <- <-] _. split; reflexivity.
    + exists (None, Some ErrTimedOut), (Z.to_N d). run_M. split; [reflexivity|].
      apply orb_false_iff in E as [E _]. apply N.ltb_ge in E. split.
      * intros _. split; [reflexivity|lia].
      * intros t' r' [= <- <-] Hlt. lia.
Qed.

(** A Slot that was inserted under a fresh key and is deleted again leaves
    the registry as it was. *)
Lemma registry_restored (m : gmap string Slot) (s : Slot) :
  delete (fresh (dom m)) (<[fresh (dom m) := s]> m) = m.
Proof.
  rewrite delete_insert_eq. apply delete_id, not_elem_of_dom, is_fresh.
Qed.

Lemma client_Sync_run (c : call) (a : Arrival) (tie : bool) (w : World)
    (ch : Channel) :
  channel (client c) = Some ch ->
  let slot := mkSlot (fresh (dom (slots w))) (clock w) in
  let msg := request_message c (FormatInt10 (client_getTimeoutInt64 c))
               (correlationID slot) in
  let w1 := snd (client_Async c w) in
  client_Sync c a tie w =
    match publish_result ch (serviceName (client c)) msg with
    | Some e => (Ret (None, Some e), w1)
    | None =>
        let r := select_response_or_timer a (client_getTimeout c) tie w1 in
        (fst r, mkWorld (trace (snd r)) (clock (snd r)) (slots w)
                  (extensions (snd r)))
    end.
Proof.
  intros Hch. cbv zeta. unfold client_Sync, bind.
  rewrite (client_Async_run c w ch Hch). cbv zeta. simpl.
  destruct (publish_result ch _ _); simpl; [reflexivity|].
  unfold defer, Dispose.
  match goal with
  | |- context [select_response_or_timer a (client_getTimeout c) tie ?w'] =>
      destruct (select_run a (client_getTimeout c) tie w') as (r & waited & -> & _)
  end.
  simpl. rewrite registry_restored. reflexivity.
Qed.

Lemma Sync_run (c : call) (a : Arrival) (tie : bool) (w : World)
    (ch : Channel) :
  openChannel_result (broker (client c)) = inl ch ->
  let slot := mkSlot (fresh (dom (slots w))) (clock w) in
  let msg := request_message c (FormatInt10 (getTimeoutMilliseconds c))
               (correlationID slot) in
  let w1 := snd (Async c w) in
  Sync c a tie w =
    match publish_result ch (serviceName (client c)) msg with
    | Some e => (Ret (None, Some e), w1)
    | None =>
        let r := select_response_or_timer a (getTimeout c) tie w1 in
        (fst r, mkWorld (trace (snd r)) (clock (snd r)) (slots w)
                  (extensions (snd r)))
    end.
Proof.
  intros Hch. cbv zeta. unfold Sync, bind.
  rewrite (Async_run c w ch Hch). cbv zeta. simpl.
  destruct (publish_result ch _ _); simpl; [reflexivity|].
  unfold defer, Dispose.
  match goal with
  | |- context [select_response_or_timer a (getTimeout c) tie ?w'] =>
      destruct (select_run a (getTimeout c) tie w') as (r & waited & -> & _)
  end.
  simpl. rewrite registry_restored. reflexivity.
Qed.

(** On a publish error [client.Async] hands back the error and no Slot,
    and the registry still maps the call's correlation ID to its Slot. *)
Lemma client_Async_error_keeps_slot (c : call) (w : World) (ch : Channel)
    (e : error) :
  channel (client c) = Some ch ->
  (forall msg, publish_result ch (serviceName (client c)) msg = Some e) ->
  fst (client_Async c w) = Ret (None, Some e) /\
  registered (fresh (dom (slots w))) (snd (client_Async c w)).
Proof.
  intros Hch He. rewrite (client_Async_run c w ch Hch). cbv zeta. simpl.
  rewrite He. split; [reflexivity|].
  unfold registered. simpl. rewrite lookup_insert_eq. eauto.
Qed.

(** The same for [porthos.Async], on a publish error and when no channel
    could be opened. *)
Lemma Async_error_keeps_slot (c : call) (w : World) (e : error) :
  (openChannel_result (broker (client c)) = inr e \/
   exists ch, openChannel_result (broker (client c)) = inl ch /\
     forall msg, publish_result ch (serviceName (client c)) msg = Some e) ->
  fst (Async c w) = Ret (None, Some e) /\
  registered (fresh (dom (slots w))) (snd (Async c w)).
Proof.
  intros [Hno|(ch & Hch & He)].
  - rewrite (Async_no_channel c w e Hno). cbv zeta. simpl. split; [reflexivity|].
    unfold registered. simpl. rewrite lookup_insert_eq. eauto.
  - rewrite (Async_run c w ch Hch). cbv zeta. simpl. rewrite He.
    split; [reflexivity|].
    unfold registered. simpl. rewrite lookup_insert_eq. eauto.
Qed.

(** C1, the code at the failing input: a call on a client whose channel is
    closed, started with an empty registry.  Both [client.Async] and
    [porthos.Async] return the publish error and no Slot, and afterwards
    the registry holds the Slot that was created for the call under its
    correlation ID: the Slot is leaked. *)
Theorem Async_publish_error_leaks_slot :
  fst (client_Async (newCall broken_client "add") empty_world)
    = Ret (None, Some (amqp_Error "channel/connection is not open")) /\
  slots (snd (client_Async (newCall broken_client "add") empty_world))
    !! fresh (dom (slots empty_world))
    = Some (mkSlot (fresh (dom (slots empty_world))) 0) /\
  fst (Async (newCall broken_client "add") empty_world)
    = Ret (None, Some (amqp_Error "channel/connection is not open")) /\
  slots (snd (Async (newCall broken_client "add") empty_world))
    !! fresh (dom (slots empty_world))
    = Some (mkSlot (fresh (dom (slots empty_world))) 0).
Proof. vm_compute. repeat split. Qed.

(** C3, counterexample: a [Sync] call whose publish fails returns the
    publish error, and the Slot created for it is still in the registry. *)
Lemma Sync_publish_error_not_disposed :
  fst (client_Sync (newCall broken_client "add") NoReply true empty_world)
    = Ret (None, Some (amqp_Error "channel/connection is not open")) /\
  slots (snd (client_Sync (newCall broken_client "add") NoReply true empty_world))
    !! fresh (dom (slots empty_world)) <> None.
Proof. vm_compute. split; [reflexivity|discriminate]. Qed.

(** C3, as amended: for a [Sync] call (of either package) whose publish
    succeeds, the call returns [ErrTimedOut] when no reply arrives before
    the effective timeout has elapsed, and it does so exactly when the
    timeout has elapsed; it returns the Response when the reply arrives
    first; and on both ways out the Slot has been disposed: the registry
    has no entry for the call's correlation ID and is what it was before
    the call.  When the publish fails, [Sync] returns the publish error. *)
Theorem Sync_outcome_and_disposal (c : call) (a : Arrival) (tie : bool)
    (w : World) (ch ch' : Channel) :
  channel (client c) = Some ch ->
  openChannel_result (broker (client c)) = inl ch' ->
  ((forall msg, publish_result ch (serviceName (client c)) msg = None) ->
     let r := client_Sync c a tie w in
     ((a = NoReply \/
       exists t resp, a = ReplyAfter t resp /\ (Z.to_N (getTimeout c) < t)%N) ->
        fst r = Ret (None, Some ErrTimedOut) /\
        clock (snd r) = clock w + Z.max 0 (getTimeout c)) /\
     (forall t resp, a = ReplyAfter t resp -> (t < Z.to_N (getTimeout c))%N ->
        fst r = Ret (Some resp, None)) /\
     slots (snd r) !! fresh (dom (slots w)) = None /\
     slots (snd r) = slots w) /\
  ((forall msg, publish_result ch' (serviceName (client c)) msg = None) ->
     let r := Sync c a tie w in
     ((a = NoReply \/
       exists t resp, a = ReplyAfter t resp /\ (Z.to_N (getTimeout c) < t)%N) ->
        fst r = Ret (None, Some ErrTimedOut) /\
        clock (snd r) = clock w + Z.max 0 (getTimeout c)) /\
     (forall t resp, a = ReplyAfter t resp -> (t < Z.to_N (getTimeout c))%N ->
        fst r = Ret (Some resp, None)) /\
     slots (snd r) !! fresh (dom (slots w)) = None /\
     slots (snd r) = slots w) /\
  (forall e,
     (forall msg, publish_result ch (serviceName (client c)) msg = Some e) ->
     fst (client_Sync c a tie w) = Ret (None, Some e)) /\
  (forall e,
     (forall msg, publish_result ch' (serviceName (client c)) msg = Some e) ->
     fst (Sync c a tie w) = Ret (None, Some e)).
Proof.
  intros Hch Hch'.
  assert (Hfresh : slots w !! fresh (dom (slots w)) = None)
    by apply not_elem_of_dom, is_fresh.
  split; [|split; [|split]].
  - intros Hok. cbv zeta. rewrite (client_Sync_run c a tie w ch Hch).
    cbv zeta. rewrite Hok. rewrite (client_Async_run c w ch Hch). cbv zeta.
    simpl snd.
    match goal with
    | |- context [select_response_or_timer a (client_getTimeout c) tie ?w'] =>
        destruct (select_run a (client_getTimeout c) tie w')
          as (r & waited & -> & Hto & Hre)
    end.
    simpl. rewrite client_getTimeout_eq in *.
    split; [|split; [|split]]; auto.
    + intros Ha. destruct (Hto Ha) as [-> <-]. split; reflexivity.
    + intros t resp Ha Hlt. destruct (Hre t resp Ha Hlt) as [-> _]. reflexivity.
  - intros Hok. cbv zeta. rewrite (Sync_run c a tie w ch' Hch').
    cbv zeta. rewrite Hok. rewrite (Async_run c w ch' Hch'). cbv zeta.
    simpl snd.
    match goal with
    | |- context [select_response_or_timer a (getTimeout c) tie ?w'] =>
        destruct (select_run a (getTimeout c) tie w')
          as (r & waited & -> & Hto & Hre)
    end.
    simpl.
    split; [|split; [|split]]; auto.
    + intros Ha. destruct (Hto Ha) as [-> <-]. split; reflexivity.
    + intros t resp Ha Hlt. destruct (Hre t resp Ha Hlt) as [-> _]. reflexivity.
  - intros e He. rewrite (client_Sync_run c a tie w ch Hch). cbv zeta.
    rewrite He. reflexivity.
  - intros e He. rewrite (Sync_run c a tie w ch' Hch'). cbv zeta.
    rewrite He. reflexivity.
Qed.

(** C3, witness: a call with a 50 ms timeout on a healthy client, never
    answered. *)
Lemma Sync_outcome_and_disposal_witness :
  fst (client_Sync (WithTimeout (newCall healthy_client "missing") (50 * Millisecond))
         NoReply true empty_world) = Ret (None, Some ErrTimedOut) /\
  clock (snd (client_Sync
                (WithTimeout (newCall healthy_client "missing") (50 * Millisecond))
                NoReply true empty_world)) = 50 * Millisecond /\
  slots (snd (client_Sync
                (WithTimeout (newCall healthy_client "missing") (50 * Millisecond))
                NoReply true empty_world)) = ∅.
Proof.
  destruct (Sync_outcome_and_disposal
              (WithTimeout (newCall healthy_client "missing") (50 * Millisecond))
              NoReply true empty_world open_channel open_channel
              eq_refl eq_refl) as (H & _).
  destruct (H (fun _ => eq_refl)) as (Hto & _ & _ & Hslots).
  destruct (Hto (or_introl eq_refl)) as [Hr Hc].
  split; [exact Hr|]. split; [exact Hc|exact Hslots].
Defined.

(** [client.Async] and [porthos.Async] publish exactly one message, the
    request message built from the call and the new Slot. *)
Lemma client_Async_published (c : call) (w : World) (ch : Channel) :
  channel (client c) = Some ch ->
  published (trace (snd (client_Async c w))) =
    published (trace w) ++
    [request_message c (FormatInt10 (client_getTimeoutInt64 c))
       (fresh (dom (slots w)))].
Proof.
  intros Hch. rewrite (client_Async_run c w ch Hch). cbv zeta. simpl.
  rewrite published_app. reflexivity.
Qed.

Lemma Async_published (c : call) (w : World) (ch : Channel) :
  openChannel_result (broker (client c)) = inl ch ->
  published (trace (snd (Async c w))) =
    published (trace w) ++
    [request_message c (FormatInt10 (getTimeoutMilliseconds c))
       (fresh (dom (slots w)))].
Proof.
  intros Hch. rewrite (Async_run c w ch Hch). cbv zeta. simpl.
  rewrite published_app. reflexivity.
Qed.

(** C9: the one message an [Async] call (of either package) publishes
    carries the correlation ID of the Slot created for the call, which is
    the Slot the call returns; its reply-to is the name of the client's
    response queue; its expiration is the decimal string of the effective
    timeout divided by a millisecond.  The effective timeout is the
    call's own timeout when one is set (the stored value is positive, zero
    being the unset value) and the client's default TTL otherwise. *)
Theorem Async_request_message (c : call) (w : World) (slot : Slot)
    (ch ch' : Channel) :
  fst (makeNewSlot w) = Ret slot ->
  channel (client c) = Some ch ->
  openChannel_result (broker (client c)) = inl ch' ->
  (exists msg,
     published (trace (snd (client_Async c w))) = published (trace w) ++ [msg] /\
     CorrelationId msg = getCorrelationID slot /\
     ReplyTo msg = Name (responseQueue (client c)) /\
     Expiration msg = FormatInt10 (Z.quot (client_getTimeout c) Millisecond) /\
     (forall s, fst (client_Async c w) = Ret (Some s, None) -> s = slot)) /\
  (exists msg,
     published (trace (snd (Async c w))) = published (trace w) ++ [msg] /\
     CorrelationId msg = getCorrelationID slot /\
     ReplyTo msg = Name (responseQueue (client c)) /\
     Expiration msg = FormatInt10 (Z.quot (getTimeout c) Millisecond) /\
     (forall s, fst (Async c w) = Ret (Some s, None) -> s = slot)) /\
  (0 < timeout c -> getTimeout c = timeout c /\ client_getTimeout c = timeout c) /\
  (timeout c <= 0 ->
     getTimeout c = defaultTTL (client c) /\
     client_getTimeout c = defaultTTL (client c)).
Proof.
  rewrite makeNewSlot_run. simpl. intros [= <-] Hch Hch'.
  split; [|split; [|split]].
  - eexists. split; [apply (client_Async_published c w ch Hch)|].
    simpl. rewrite client_getTimeoutInt64_eq, getTimeoutMilliseconds_quot.
    repeat split.
    rewrite (client_Async_run c w ch Hch). cbv zeta. simpl.
    destruct (publish_result ch _ _); intros s [= <-]; reflexivity.
  - eexists. split; [apply (Async_published c w ch' Hch')|].
    simpl. rewrite getTimeoutMilliseconds_quot.
    repeat split.
    rewrite (Async_run c w ch' Hch'). cbv zeta. simpl.
    destruct (publish_result ch' _ _); intros s [= <-]; reflexivity.
  - intros H. change (client_getTimeout c) with (getTimeout c). split; apply getTimeout_set, H.
  - intros H. change (client_getTimeout c) with (getTimeout c). split; apply getTimeout_unset, H.
Qed.

(** C9, witness: a call with a timeout of 1.5 s on a healthy client. *)
Lemma Async_request_message_witness :
  exists msg,
    published (trace (snd (client_Async
                (WithTimeout (newCall healthy_client "add") (1500 * Millisecond))
                empty_world))) = [msg] /\
    CorrelationId msg = fresh (dom (slots empty_world)) /\
    ReplyTo msg = "amq.gen-1" /\
    Expiration msg = "1500".
Proof.
  destruct (Async_request_message
              (WithTimeout (newCall healthy_client "add") (1500 * Millisecond))
              empty_world (mkSlot (fresh (dom (slots empty_world))) 0)
              open_channel open_channel eq_refl eq_refl eq_refl)
    as ((msg & Hp & Hc & Hr & He & _) & _).
  exists msg. split; [exact Hp|]. split; [exact Hc|]. split; [exact Hr|].
  rewrite He. reflexivity.
Defined.

(** C10, counterexample: on a client whose default TTL is 500 microseconds
    (strictly positive), [WithTimeout(0)] publishes the expiration "0". *)
Lemma WithTimeout_zero_publishes_zero_expiration :
  map Expiration
    (published (trace (snd (client_Async
       (WithTimeout (newCall hasty_client "add") 0) empty_world)))) = ["0"] /\
  map Expiration
    (published (trace (snd (Async
       (WithTimeout (newCall hasty_client "add") 0) empty_world)))) = ["0"] /\
  0 < defaultTTL hasty_client.
Proof. vm_compute. repeat split. Qed.

Lemma FormatInt10_zero (n : Z) : FormatInt10 n = "0" <-> n = 0.
Proof.
  split; [|intros ->; reflexivity].
  intros H. apply (inj (pretty : Z -> string)). exact H.
Qed.

(** C10, as amended: a zero or negative timeout given to [WithTimeout] is
    ignored.  [getTimeout] then returns the client's default TTL and the
    published expiration is the decimal string of the default TTL in whole
    milliseconds (the division truncates).  So after [WithTimeout(0)] the
    timeout is not zero when the default TTL is strictly positive, and the
    expiration is not "0" exactly when the default TTL is one millisecond
    or more (in absolute value). *)
Theorem WithTimeout_nonpositive_ignored (c : call) (t : Z) (w : World)
    (ch ch' : Channel) :
  t <= 0 ->
  channel (client c) = Some ch ->
  openChannel_result (broker (client c)) = inl ch' ->
  getTimeout (WithTimeout c t) = defaultTTL (client c) /\
  client_getTimeout (WithTimeout c t) = defaultTTL (client c) /\
  map Expiration (published (trace (snd (client_Async (WithTimeout c t) w)))) =
    map Expiration (published (trace w)) ++
    [FormatInt10 (Z.quot (defaultTTL (client c)) Millisecond)] /\
  map Expiration (published (trace (snd (Async (WithTimeout c t) w)))) =
    map Expiration (published (trace w)) ++
    [FormatInt10 (Z.quot (defaultTTL (client c)) Millisecond)] /\
  (0 < defaultTTL (client c) -> getTimeout (WithTimeout c t) <> 0) /\
  (FormatInt10 (Z.quot (defaultTTL (client c)) Millisecond) <> "0" <->
     Millisecond <= Z.abs (defaultTTL (client c))).
Proof.
  intros Ht Hch Hch'.
  assert (Hg : getTimeout (WithTimeout c t) = defaultTTL (client c))
    by exact (getTimeout_unset (WithTimeout c t) Ht).
  split; [exact Hg|]. split; [exact Hg|].
  split; [|split; [|split]].
  - rewrite (client_Async_published (WithTimeout c t) w ch Hch).
    rewrite map_app. simpl.
    rewrite client_getTimeoutInt64_eq, getTimeoutMilliseconds_quot, Hg.
    reflexivity.
  - rewrite (Async_published (WithTimeout c t) w ch' Hch').
    rewrite map_app. simpl.
    rewrite getTimeoutMilliseconds_quot, Hg. reflexivity.
  - rewrite Hg. lia.
  - rewrite FormatInt10_zero.
    rewrite Z.quot_small_iff by (unfold Millisecond; lia).
    unfold Millisecond. lia.
Qed.

(** C10, witness: [WithTimeout(0)] on a client with a default TTL of two
    seconds. *)
Lemma WithTimeout_nonpositive_ignored_witness :
  getTimeout (WithTimeout (newCall healthy_client "add") 0) = 2000 * Millisecond /\
  map Expiration
    (published (trace (snd (client_Async
       (WithTimeout (newCall healthy_client "add") 0) empty_world)))) = ["2000"].
Proof.
  destruct (WithTimeout_nonpositive_ignored (newCall healthy_client "add") 0
              empty_world open_channel open_channel
              ltac:(lia) eq_refl eq_refl) as (Hg & _ & He & _).
  split; [exact Hg|]. rewrite He. reflexivity.
Defined.

(** [withJSON] panics with the encoder's error; the [client] package's
    [WithArgs] and [WithMap] drop it. *)
Lemma withJSON_panics (interface : Type)
    (json_Marshal : interface -> bytes * option error) (c : call)
    (i : interface) (e : error) (w : World) :
  snd (json_Marshal i) = Some e ->
  withJSON interface json_Marshal c i w = (Panic (PanicError e), w).
Proof. intros H. unfold withJSON. rewrite H. reflexivity. Qed.

Lemma client_WithArgs_returns (interface : Type)
    (json_Marshal : interface -> bytes * option error)
    (slice_value : list interface -> interface) (c : call)
    (args : list interface) (w : World) :
  exists c',
    client_WithArgs interface json_Marshal slice_value c args w = (Ret c', w) /\
    body c' = fst (json_Marshal (slice_value args)) /\
    contentType c' = "application/porthos-args".
Proof. eexists. split; [reflexivity|]. split; reflexivity. Qed.

Lemma client_WithMap_returns (interface : Type)
    (json_Marshal : interface -> bytes * option error) (c : call)
    (m : interface) (w : World) :
  exists c',
    client_WithMap interface json_Marshal c m w = (Ret c', w) /\
    body c' = fst (json_Marshal m) /\
    contentType c' = "application/porthos-map".
Proof. eexists. split; [reflexivity|]. split; reflexivity. Qed.

(** C8, the code at the failing input: the argument list holds a
    [chan int], which [encoding/json] cannot encode.  In package [porthos]
    [WithArgs] and [WithStruct] panic with the encoder's error; in package
    [client], [WithArgs] returns normally, with an empty body and the
    content type set. *)
Theorem client_WithArgs_swallows_encoding_error :
  snd (sample_Marshal (slice_of [chan_int])) =
    Some (json_Error "json: unsupported type: chan int") /\
  client_WithArgs GoValue sample_Marshal slice_of (newCall healthy_client "add")
    [chan_int] empty_world =
    (Ret (mkCall healthy_client 0 "add" [] "application/porthos-args"),
     empty_world) /\
  WithArgs GoValue sample_Marshal slice_of (newCall healthy_client "add")
    [chan_int] empty_world =
    (Panic (PanicError (json_Error "json: unsupported type: chan int")),
     empty_world) /\
  WithStruct GoValue sample_Marshal (newCall healthy_client "add")
    chan_int empty_world =
    (Panic (PanicError (json_Error "json: unsupported type: chan int")),
     empty_world).
Proof. repeat split. Qed.

(* ===================================================================== *)
(** ** Properties: the response writers *)
(* ===================================================================== *)

Lemma acked_app (t1 t2 : list Event) : acked (t1 ++ t2) = acked t1 ++ acked t2.
Proof. apply omap_app. Qed.

Lemma rejected_app (t1 t2 : list Event) :
  rejected (t1 ++ t2) = rejected t1 ++ rejected t2.
Proof. apply omap_app. Qed.

Lemma routing_keys_app (t1 t2 : list Event) :
  routing_keys (t1 ++ t2) = routing_keys t1 ++ routing_keys t2.
Proof. apply omap_app. Qed.

Lemma hooks_app (t1 t2 : list Event) : hooks (t1 ++ t2) = hooks t1 ++ hooks t2.
Proof. apply omap_app. Qed.

Lemma outgoing_arguments_app (t1 t2 : list Event) :
  outgoing_arguments (t1 ++ t2) = outgoing_arguments t1 ++ outgoing_arguments t2.
Proof. apply omap_app. Qed.

Lemma Write_run (rw : responseWriter) (res : Response) (w : World) (ch : Channel) :
  rw_channel rw = Some ch ->
  let d := rw_delivery rw in
  let msg := response_message rw (with_status_header res) in
  let err := publish_result ch (d_ReplyTo d) msg in
  Write rw res w =
    (Ret (with_status_header res, err),
     mkWorld
       (trace w ++
        [EvLog LDebug "Sending response to queue '%s'. Slot: '%d'"
           [d_ReplyTo d; d_CorrelationId d];
         EvPublish (chan_id ch) "" (d_ReplyTo d) false false msg] ++
        (match err with
         | Some _ => []
         | None =>
             if rw_autoAck rw then []
             else [EvAck (d_DeliveryTag d) false;
                   EvLog LDebug "Ack from slot '%d'" [d_CorrelationId d]]
         end))
       (clock w) (slots w) (extensions w)).
Proof.
  intros Hch. cbv zeta. unfold Write. run_M. rewrite Hch. simpl.
  destruct (publish_result ch _ _); simpl.
  - rewrite <- !app_assoc. reflexivity.
  - destruct (rw_autoAck rw); simpl; rewrite <- !app_assoc; reflexivity.
Qed.

Lemma ResponseWriter_Write_run (rw : responseWriter) (res : Response)
    (w : World) (ch : Channel) :
  rw_channel rw = Some ch ->
  let d := rw_delivery rw in
  let msg := legacy_response_message rw res in
  let err := publish_result ch (d_ReplyTo d) msg in
  ResponseWriter_Write rw res w =
    (Ret err,
     mkWorld
       (trace w ++
        [EvLog LInfo "Sending response to queue '%s'. Slot: '%d'"
           [d_ReplyTo d; d_CorrelationId d];
         EvPublish (chan_id ch) "" (d_ReplyTo d) false false msg] ++
        (match err with
         | Some _ => []
         | None =>
             if rw_autoAck rw then []
             else [EvAck (d_DeliveryTag d) false;
                   EvLog LDebug "Ack from slot '%d'" [d_CorrelationId d]]
         end))
       (clock w) (slots w) (extensions w)).
Proof.
  intros Hch. cbv zeta. unfold ResponseWriter_Write. run_M. rewrite Hch. simpl.
  destruct (publish_result ch _ _); simpl.
  - rewrite <- !app_assoc. reflexivity.
  - destruct (rw_autoAck rw); simpl; rewrite <- !app_assoc; reflexivity.
Qed.

Lemma Write_nil_run (rw : responseWriter) (res : Response) (w : World) :
  rw_channel rw = None ->
  Write rw res w =
    (Ret (res, Some ErrNilPublishChannel),
     mkWorld
       (trace w ++
        [EvLog LDebug "Sending response to queue '%s'. Slot: '%d'"
           [d_ReplyTo (rw_delivery rw); d_CorrelationId (rw_delivery rw)]])
       (clock w) (slots w) (extensions w)).
Proof. intros Hch. unfold Write. run_M. rewrite Hch. reflexivity. Qed.

Lemma ResponseWriter_Write_nil_run (rw : responseWriter) (res : Response)
    (w : World) :
  rw_channel rw = None ->
  ResponseWriter_Write rw res w =
    (Ret (Some (errors_New "No AMQP channel to publish the response to.")),
     mkWorld
       (trace w ++
        [EvLog LInfo "Sending response to queue '%s'. Slot: '%d'"
           [d_ReplyTo (rw_delivery rw); d_CorrelationId (rw_delivery rw)]])
       (clock w) (slots w) (extensions w)).
Proof. intros Hch. unfold ResponseWriter_Write. run_M. rewrite Hch. reflexivity. Qed.

(** C5: a writer with a bound channel.  [Write] enters the status code in
    the Response's header set, publishes one message, to the delivery's
    reply-to, with the delivery's correlation ID and with the status code
    among its headers, and returns what the publish returned.  The delivery
    is acknowledged exactly when the publish succeeded and auto-ack is off,
    and then after the publish; nothing is ever rejected.  The earlier
    writer of server/response.go does the same with a header table of its
    own. *)
Theorem Write_publishes_then_acks (rw : responseWriter) (res : Response)
    (w : World) (ch : Channel) :
  rw_channel rw = Some ch ->
  let d := rw_delivery rw in
  (exists res' msg err,
     Write rw res w =
       (Ret (res', err),
        mkWorld
          (trace w ++
           [EvLog LDebug "Sending response to queue '%s'. Slot: '%d'"
              [d_ReplyTo d; d_CorrelationId d];
            EvPublish (chan_id ch) "" (d_ReplyTo d) false false msg] ++
           (match err with
            | Some _ => []
            | None =>
                if rw_autoAck rw then []
                else [EvAck (d_DeliveryTag d) false;
                      EvLog LDebug "Ack from slot '%d'" [d_CorrelationId d]]
            end))
          (clock w) (slots w) (extensions w)) /\
     err = publish_result ch (d_ReplyTo d) msg /\
     asMap (res_headers res') !! "statusCode" = Some (VInt16 (res_statusCode res)) /\
     res_statusCode res' = res_statusCode res /\
     res_content res' = res_content res /\
     res_contentType res' = res_contentType res /\
     Headers msg = asMap (res_headers res') /\
     CorrelationId msg = d_CorrelationId d /\
     ContentType msg = res_contentType res /\
     Body msg = res_content res /\
     published (trace (snd (Write rw res w))) = published (trace w) ++ [msg] /\
     routing_keys (trace (snd (Write rw res w))) =
       routing_keys (trace w) ++ [d_ReplyTo d] /\
     acked (trace (snd (Write rw res w))) =
       acked (trace w) ++
       (match err with
        | Some _ => []
        | None => if rw_autoAck rw then [] else [d_DeliveryTag d]
        end) /\
     rejected (trace (snd (Write rw res w))) = rejected (trace w)) /\
  (exists msg err,
     ResponseWriter_Write rw res w =
       (Ret err,
        mkWorld
          (trace w ++
           [EvLog LInfo "Sending response to queue '%s'. Slot: '%d'"
              [d_ReplyTo d; d_CorrelationId d];
            EvPublish (chan_id ch) "" (d_ReplyTo d) false false msg] ++
           (match err with
            | Some _ => []
            | None =>
                if rw_autoAck rw then []
                else [EvAck (d_DeliveryTag d) false;
                      EvLog LDebug "Ack from slot '%d'" [d_CorrelationId d]]
            end))
          (clock w) (slots w) (extensions w)) /\
     err = publish_result ch (d_ReplyTo d) msg /\
     Headers msg !! "statusCode" = Some (VInt16 (res_statusCode res)) /\
     CorrelationId msg = d_CorrelationId d /\
     acked (trace (snd (ResponseWriter_Write rw res w))) =
       acked (trace w) ++
       (match err with
        | Some _ => []
        | None => if rw_autoAck rw then [] else [d_DeliveryTag d]
        end)).
Proof.
  intros Hch. cbv zeta. split.
  - exists (with_status_header res),
      (response_message rw (with_status_header res)),
      (publish_result ch (d_ReplyTo (rw_delivery rw))
         (response_message rw (with_status_header res))).
    rewrite (Write_run rw res w ch Hch). cbv zeta.
    split; [reflexivity|]. split; [reflexivity|].
    split; [apply lookup_insert_eq|].
    do 7 (split; [reflexivity|]).
    simpl snd. simpl trace.
    rewrite published_app, routing_keys_app, acked_app, rejected_app.
    destruct (publish_result ch _ _); [|destruct (rw_autoAck rw)];
      simpl; rewrite ?app_nil_r; repeat split.
  - exists (legacy_response_message rw res),
      (publish_result ch (d_ReplyTo (rw_delivery rw))
         (legacy_response_message rw res)).
    rewrite (ResponseWriter_Write_run rw res w ch Hch). cbv zeta.
    split; [reflexivity|]. split; [reflexivity|].
    split; [apply lookup_singleton_eq|]. split; [reflexivity|].
    simpl snd. simpl trace. rewrite acked_app.
    destruct (publish_result ch _ _); [|destruct (rw_autoAck rw)]; reflexivity.
Qed.

(** C5, witness: a 200 response written with manual acknowledgment on an
    open channel. *)
Lemma Write_publishes_then_acks_witness :
  acked (trace (snd (Write bound_writer ok_response empty_world))) = [1%N] /\
  routing_keys (trace (snd (Write bound_writer ok_response empty_world))) =
    ["amq.gen-1"].
Proof.
  destruct (Write_publishes_then_acks bound_writer ok_response empty_world
              open_channel eq_refl)
    as ((res' & msg & err & _ & He & _ & _ & _ & _ & _ & _ & _ & _ & _ & Hk & Ha & _) & _).
  split; [|exact Hk].
  rewrite Ha. rewrite He. reflexivity.
Defined.

(** C6: a writer with no channel.  [Write] returns [ErrNilPublishChannel]
    at once: it publishes nothing, acknowledges nothing, rejects nothing and
    leaves the Response as it was; all it does is write its log line.  The
    earlier writer of server/response.go returns a new error with the same
    message. *)
Theorem Write_nil_channel (rw : responseWriter) (res : Response) (w : World) :
  rw_channel rw = None ->
  fst (Write rw res w) = Ret (res, Some ErrNilPublishChannel) /\
  published (trace (snd (Write rw res w))) = published (trace w) /\
  acked (trace (snd (Write rw res w))) = acked (trace w) /\
  rejected (trace (snd (Write rw res w))) = rejected (trace w) /\
  trace (snd (Write rw res w)) =
    trace w ++
    [EvLog LDebug "Sending response to queue '%s'. Slot: '%d'"
       [d_ReplyTo (rw_delivery rw); d_CorrelationId (rw_delivery rw)]] /\
  (exists e,
     fst (ResponseWriter_Write rw res w) = Ret (Some e) /\
     Error e = Error ErrNilPublishChannel) /\
  published (trace (snd (ResponseWriter_Write rw res w))) = published (trace w) /\
  acked (trace (snd (ResponseWriter_Write rw res w))) = acked (trace w).
Proof.
  intros Hch.
  rewrite (Write_nil_run rw res w Hch), (ResponseWriter_Write_nil_run rw res w Hch).
  simpl. rewrite !published_app, !acked_app, rejected_app. simpl.
  rewrite !app_nil_r. repeat split.
  eexists. split; reflexivity.
Qed.

(** C6, witness: the writer without a channel, on an empty trace. *)
Lemma Write_nil_channel_witness :
  fst (Write unbound_writer ok_response empty_world)
    = Ret (ok_response, Some ErrNilPublishChannel) /\
  acked (trace (snd (Write unbound_writer ok_response empty_world))) = [].
Proof.
  destruct (Write_nil_channel unbound_writer ok_response empty_world eq_refl)
    as (H1 & _ & H2 & _).
  split; [exact H1|exact H2].
Defined.

(* ===================================================================== *)
(** ** Properties: request dispatch *)
(* ===================================================================== *)

Lemma logged_errors_app (t1 t2 : list Event) :
  logged_errors (t1 ++ t2) = logged_errors t1 ++ logged_errors t2.
Proof. apply omap_app. Qed.

Lemma processRequest_unknown_method (s : server) (d : Delivery) (w : World)
    (m : string) :
  d_Headers d !! "X-Method" = Some (VString m) ->
  methods s !! m = None ->
  processRequest s d w =
    (Ret tt,
     mkWorld
       (trace w ++
        EvLog LError "Method '%s' not found." [m] ::
        (if autoAck s then [] else [EvReject (d_DeliveryTag d) false]))
       (clock w) (slots w) (extensions w)).
Proof.
  intros Hm Hmiss. unfold processRequest. rewrite Hm. cbv beta iota.
  unfold MethodHandler in *. rewrite Hmiss. run_M.
  destruct (autoAck s); simpl; rewrite <- ?app_assoc; reflexivity.
Qed.

Lemma processRequest_bad_header (s : server) (d : Delivery) (w : World) :
  (forall m, d_Headers d !! "X-Method" <> Some (VString m)) ->
  processRequest s d w = (Panic (PanicTypeAssertion "X-Method"), w).
Proof.
  intros Hbad. unfold processRequest.
  destruct (d_Headers d !! "X-Method") as [[m| |]|] eqn:E; try reflexivity.
  exfalso. exact (Hbad m eq_refl).
Qed.

(** C7: a delivery whose method has no handler.  The task logs one error
    and returns; it publishes nothing and acknowledges nothing; with manual
    acknowledgment it rejects the delivery once, without requeue, and under
    auto-ack it does nothing to the delivery.  The server keeps running and
    goes on with the deliveries that follow. *)
Theorem processRequest_method_not_found (s : server) (d : Delivery) (w : World)
    (m : string) (rest : list Delivery) :
  d_Headers d !! "X-Method" = Some (VString m) ->
  methods s !! m = None ->
  let w' := snd (processRequest s d w) in
  fst (processRequest s d w) = Ret tt /\
  logged_errors (trace w') = logged_errors (trace w) ++ ["Method '%s' not found."] /\
  rejected (trace w') =
    rejected (trace w) ++ (if autoAck s then [] else [(d_DeliveryTag d, false)]) /\
  published (trace w') = published (trace w) /\
  acked (trace w') = acked (trace w) /\
  go (processRequest s d) w = (Running, w') /\
  serve_requests s (d :: rest) w = serve_requests s rest w'.
Proof.
  intros Hm Hmiss. cbv zeta. simpl serve_requests. unfold go.
  rewrite (processRequest_unknown_method s d w m Hm Hmiss). simpl.
  rewrite logged_errors_app, rejected_app, published_app, acked_app.
  destruct (autoAck s); simpl; rewrite ?app_nil_r; repeat split.
Qed.

(** C7, witness: a delivery for "sub" on a server that only knows "add",
    followed by a delivery for "add", which is then served. *)
Lemma processRequest_method_not_found_witness :
  fst (processRequest calc_server delivery_unknown empty_world) = Ret tt /\
  rejected (trace (snd (processRequest calc_server delivery_unknown empty_world)))
    = [(2%N, false)] /\
  fst (serve_requests calc_server [delivery_unknown; delivery_add] empty_world)
    = Running.
Proof.
  destruct (processRequest_method_not_found calc_server delivery_unknown
              empty_world "sub" [delivery_add] eq_refl eq_refl)
    as (H1 & _ & H2 & _ & _ & _ & H3).
  split; [exact H1|]. split; [exact H2|].
  rewrite H3. vm_compute. reflexivity.
Defined.

(** C2, counterexample: one delivery without the X-Method header takes the
    whole server down; the "add" delivery behind it is never served. *)
Lemma missing_method_header_crashes_server :
  serve_requests calc_server [delivery_no_method; delivery_add] empty_world
    = (Crashed (PanicTypeAssertion "X-Method"), empty_world) /\
  serve_requests calc_server [delivery_numeric_method; delivery_add] empty_world
    = (Crashed (PanicTypeAssertion "X-Method"), empty_world) /\
  published (trace (snd (serve_requests calc_server [delivery_add] empty_world)))
    <> [].
Proof. vm_compute. repeat split. discriminate. Qed.

(** C2, as amended: for a delivery whose X-Method header is missing or not
    a string, the type assertion at the top of [processRequest] panics
    before anything is logged, published, acknowledged or rejected.  The
    dispatch goroutine has no [recover], so the panic is not confined to
    the task: the server process ends with it, and no delivery after this
    one is handled. *)
Theorem processRequest_bad_method_header (s : server) (d : Delivery) (w : World)
    (rest : list Delivery) :
  (forall m, d_Headers d !! "X-Method" <> Some (VString m)) ->
  processRequest s d w = (Panic (PanicTypeAssertion "X-Method"), w) /\
  go (processRequest s d) w = (Crashed (PanicTypeAssertion "X-Method"), w) /\
  serve_requests s (d :: rest) w = (Crashed (PanicTypeAssertion "X-Method"), w).
Proof.
  intros Hbad. simpl serve_requests. unfold go.
  rewrite (processRequest_bad_header s d w Hbad). repeat split.
Qed.

(** C2, witness: the delivery whose X-Method header is the number 7. *)
Lemma processRequest_bad_method_header_witness :
  go (processRequest calc_server delivery_numeric_method) empty_world
    = (Crashed (PanicTypeAssertion "X-Method"), empty_world).
Proof.
  refine (proj1 (proj2 (processRequest_bad_method_header calc_server
                          delivery_numeric_method empty_world [] _))).
  intros m. vm_compute. discriminate.
Defined.

(* ===================================================================== *)
(** ** Properties: the extension pipeline *)
(* ===================================================================== *)

Lemma range_IncomingRequest_run (exts : list Extension) (req : Request) :
  Forall incoming_returns exts ->
  forall w, exists dt : N,
    range_IncomingRequest exts req w =
      (Ret tt,
       mkWorld (trace w ++ map (fun e => EvIncomingRequest (ext_name e) req) exts)
         (clock w + Z.of_N dt) (slots w) (extensions w)).
Proof.
  induction 1 as [|ext exts Hext _ IH]; intros w.
  - exists 0%N. destruct w. simpl. unfold ret. simpl.
    rewrite app_nil_r, Z.add_0_r. reflexivity.
  - simpl. run_M. specialize (Hext req).
    destruct (IncomingRequest ext req) as [o n]. simpl in *. subst o.
    match goal with
    | |- context [range_IncomingRequest exts req ?w'] =>
        destruct (IH w') as [dt ->]
    end.
    exists (n + dt)%N. simpl. rewrite <- app_assoc. simpl.
    f_equal. f_equal. lia.
Qed.

Lemma hooks_incoming (exts : list Extension) (req : Request) :
  hooks (map (fun e => EvIncomingRequest (ext_name e) req) exts) =
    map (fun e => HookIncoming (ext_name e)) exts.
Proof. induction exts as [|e exts IH]; simpl; [|rewrite <- IH]; reflexivity. Qed.

Lemma outgoing_arguments_incoming (exts : list Extension) (req : Request) :
  outgoing_arguments (map (fun e => EvIncomingRequest (ext_name e) req) exts) = [].
Proof. induction exts as [|e exts IH]; simpl; [|rewrite <- IH]; reflexivity. Qed.

(** The loop of [pipeThroughOutgoingExtensions]: every hook is called, in
    list order, with the elapsed time it was given and with the status code
    the Response has at that moment. *)
Lemma range_OutgoingResponse_run (exts : list Extension) (req : Request)
    (elapsed : Z) :
  Forall outgoing_returns exts ->
  forall res w, exists (res' : Response) (evs : list Event) (dt : N),
    range_OutgoingResponse exts req res elapsed w =
      (Ret res',
       mkWorld (trace w ++ evs) (clock w + Z.of_N dt) (slots w) (extensions w)) /\
    hooks evs = map (fun e => HookOutgoing (ext_name e)) exts /\
    Forall (fun a => a.1.2 = elapsed /\ a.2 = GetStatusCode a.1.1)
      (outgoing_arguments evs) /\
    (Forall outgoing_keeps_status exts ->
       GetStatusCode res' = GetStatusCode res /\
       Forall (fun a => a.2 = GetStatusCode res) (outgoing_arguments evs)).
Proof.
  induction 1 as [|ext exts Hext _ IH]; intros res w.
  - exists res, [], 0%N. destruct w. simpl. unfold ret. simpl.
    rewrite app_nil_r, Z.add_0_r. repeat split; constructor.
  - simpl. run_M.
    destruct (Hext req res elapsed (GetStatusCode res)) as [res1 Hres1].
    destruct (OutgoingResponse ext req res elapsed (GetStatusCode res))
      as [o n] eqn:E. simpl in *. subst o.
    match goal with
    | |- context [range_OutgoingResponse exts req res1 elapsed ?w'] =>
        destruct (IH res1 w') as (res' & evs & dt & -> & Hh & Hargs & Hkeep)
    end.
    exists res',
      (EvOutgoingResponse (ext_name ext) req res elapsed (GetStatusCode res) :: evs),
      (n + dt)%N.
    simpl. rewrite <- app_assoc. simpl. split; [|split; [|split]].
    + f_equal. f_equal. lia.
    + rewrite Hh. reflexivity.
    + constructor; [split; reflexivity|exact Hargs].
    + intros Hk. inversion Hk as [|? ? Hk1 Hk2]; subst.
      destruct (Hkeep Hk2) as [Hs Hall].
      assert (H1 : GetStatusCode res1 = GetStatusCode res).
      { apply (Hk1 req res elapsed (GetStatusCode res)). rewrite E. reflexivity. }
      split; [congruence|].
      constructor; [reflexivity|].
      eapply Forall_impl; [exact Hall|]. simpl. intros a Ha. congruence.
Qed.

(** The wrapped handler, run with hooks and a handler that return. *)
Lemma effective_handler_run (handler : UserHandler) (req : Request)
    (res res1 : Response) (w : World) :
  Forall incoming_returns (extensions w) ->
  Forall outgoing_returns (extensions w) ->
  fst (handler req res) = Ret res1 ->
  exists (res2 : Response) (evs : list Event) (dt : N),
    effective_handler handler req res w =
      (Ret res2,
       mkWorld
         (trace w ++
          map (fun e => EvIncomingRequest (ext_name e) req) (extensions w) ++
          [EvHandler req res] ++ evs)
         (clock w + Z.of_N dt) (slots w) (extensions w)) /\
    hooks evs = map (fun e => HookOutgoing (ext_name e)) (extensions w) /\
    Forall (fun a => a.1.2 = Z.of_N (snd (handler req res)) /\
                     a.2 = GetStatusCode a.1.1)
      (outgoing_arguments evs) /\
    (Forall outgoing_keeps_status (extensions w) ->
       GetStatusCode res2 = GetStatusCode res1 /\
       Forall (fun a => a.2 = GetStatusCode res1) (outgoing_arguments evs)).
Proof.
  intros Hin Hout Hh.
  unfold effective_handler, pipeThroughIncomingExtensions,
    pipeThroughOutgoingExtensions.
  destruct (range_IncomingRequest_run (extensions w) req Hin w) as [dt Hrun].
  unfold bind at 1. cbv beta. rewrite Hrun. run_M.
  destruct (handler req res) as [o n]. simpl in *. subst o. simpl.
  replace (clock w + Z.of_N dt + Z.of_N n - (clock w + Z.of_N dt))
    with (Z.of_N n) by lia.
  match goal with
  | |- context [range_OutgoingResponse (extensions w) req res1 ?el ?w'] =>
      destruct (range_OutgoingResponse_run (extensions w) req el Hout res1 w')
        as (res2 & evs & dt' & Hrun' & Hhooks & Hargs & Hkeep)
  end.
  exists res2, evs, (dt + n + dt')%N. rewrite Hrun'. simpl.
  split; [|split; [exact Hhooks|split; [|exact Hkeep]]].
  - rewrite <- !app_assoc. simpl. f_equal. f_equal. lia.
  - exact Hargs.
Qed.



(* ===================================================================== *)
(** ** Further properties: the call builder *)
(* ===================================================================== *)

Lemma closed_channels_app (t1 t2 : list Event) :
  closed_channels (t1 ++ t2) = closed_channels t1 ++ closed_channels t2.
Proof. apply omap_app. Qed.

(** X1: [Void] hands exactly one message to the client's channel, routed to
    the service name, carrying the method name, content type and body of
    the call and no correlation ID, reply-to or expiration.  It returns
    what the publish returned and touches neither the Slot registry nor the
    clock. *)
Theorem Void_publishes_once (c : call) (w : World) (ch : Channel) :
  channel (client c) = Some ch ->
  exists msg,
    Void c w =
      (Ret (publish_result ch (serviceName (client c)) msg),
       mkWorld
         (trace w ++
          [EvPublish (chan_id ch) "" (serviceName (client c)) false false msg])
         (clock w) (slots w) (extensions w)) /\
    Headers msg !! "X-Method" = Some (VString (method c)) /\
    ContentType msg = contentType c /\
    Body msg = body c /\
    CorrelationId msg = "" /\ ReplyTo msg = "" /\ Expiration msg = "".
Proof.
  intros Hch. exists (void_message c). split.
  - unfold Void. run_M. rewrite Hch. simpl.
    destruct (publish_result ch _ _); reflexivity.
  - split; [apply lookup_singleton_eq|]. repeat split.
Qed.

Lemma Void_publishes_once_witness :
  exists msg,
    published (trace (snd (Void (WithBody (newCall healthy_client "ping") [])
                             empty_world))) = [msg] /\
    ReplyTo msg = "" /\ ContentType msg = "application/octet-stream".
Proof.
  destruct (Void_publishes_once (WithBody (newCall healthy_client "ping") [])
              empty_world open_channel eq_refl)
    as (msg & Hrun & _ & Hct & _ & _ & Hr & _).
  exists msg. rewrite Hrun. simpl. split; [reflexivity|].
  split; [exact Hr|exact Hct].
Defined.

(** X2: the builder's setters are independent of the order they are
    chained in: [WithTimeout] commutes with both body setters and leaves
    body and content type alone, the body setters leave the effective
    timeout alone, and of two body setters only the last one counts. *)
Theorem builder_setters_compose (c : call) (t : Z) (b b' : bytes) (ct : string) :
  WithTimeout (WithBody c b) t = WithBody (WithTimeout c t) b /\
  WithTimeout (WithBodyContentType c b ct) t =
    WithBodyContentType (WithTimeout c t) b ct /\
  getTimeout (WithBody c b) = getTimeout c /\
  getTimeout (WithBodyContentType c b ct) = getTimeout c /\
  getTimeoutMilliseconds (WithBodyContentType c b ct) = getTimeoutMilliseconds c /\
  WithBody (WithBodyContentType c b ct) b' = WithBody c b' /\
  WithBodyContentType (WithBody c b') b ct = WithBodyContentType c b ct /\
  WithTimeout (WithTimeout c 0) t = WithTimeout c t.
Proof. repeat split. Qed.

(** X3: on a client whose default TTL is strictly positive the effective
    timeout of every call is strictly positive, whatever was given to
    [WithTimeout]; it is the value given when that is positive and the
    default TTL in all other cases. *)
Theorem getTimeout_positive (c : call) (t : Z) :
  0 < defaultTTL (client c) ->
  0 < getTimeout (WithTimeout c t) /\
  (0 < t -> getTimeout (WithTimeout c t) = t) /\
  (t <= 0 -> getTimeout (WithTimeout c t) = defaultTTL (client c)) /\
  0 < getTimeout c.
Proof.
  intros Hd. unfold getTimeout. simpl.
  destruct (Z.ltb_spec 0 t); destruct (Z.ltb_spec 0 (timeout c));
    repeat split; intros; lia.
Qed.

Lemma getTimeout_positive_witness :
  0 < getTimeout (WithTimeout (newCall healthy_client "add") (-5)).
Proof.
  refine (proj1 (getTimeout_positive (newCall healthy_client "add") (-5) _)).
  vm_compute. reflexivity.
Defined.

(** X4: the expiration sent to the broker is the effective timeout rounded
    down to whole milliseconds: it never exceeds the timeout [Sync] waits
    for, and falls short of it by less than one millisecond.  (For a
    timeout that is not negative; both packages.) *)
Theorem expiration_within_timeout (c : call) :
  0 <= getTimeout c ->
  0 <= getTimeoutMilliseconds c /\
  getTimeoutMilliseconds c * Millisecond <= getTimeout c /\
  getTimeout c < (getTimeoutMilliseconds c + 1) * Millisecond /\
  client_getTimeoutInt64 c = getTimeoutMilliseconds c.
Proof.
  intros H. change (client_getTimeoutInt64 c) with (getTimeoutMilliseconds c).
  rewrite getTimeoutMilliseconds_quot.
  rewrite Z.quot_div_nonneg by (unfold Millisecond; lia).
  unfold Millisecond in *.
  pose proof (Z.div_mod (getTimeout c) 1000000 ltac:(lia)) as Hdm.
  pose proof (Z.mod_pos_bound (getTimeout c) 1000000 ltac:(lia)) as Hm.
  assert (0 <= getTimeout c / 1000000) by (apply Z.div_pos; lia).
  repeat split; lia.
Qed.

Lemma expiration_within_timeout_witness :
  getTimeoutMilliseconds (WithTimeout (newCall healthy_client "add") 1500999)
    * Millisecond <= 1500999.
Proof.
  exact (proj1 (proj2 (expiration_within_timeout
           (WithTimeout (newCall healthy_client "add") 1500999)
           ltac:(vm_compute; discriminate)))).
Defined.

(** X5: [porthos.Async] closes the channel it opened, once and as its last
    act, also when the publish failed; when the broker hands out no channel
    it publishes and closes nothing and returns the broker's error. *)
Theorem Async_closes_its_channel (c : call) (w : World) :
  (forall ch, openChannel_result (broker (client c)) = inl ch ->
     closed_channels (trace (snd (Async c w))) =
       closed_channels (trace w) ++ [chan_id ch] /\
     exists before,
       trace (snd (Async c w)) = before ++ [EvClose (chan_id ch)] /\
       published before = published (trace (snd (Async c w)))) /\
  (forall e, openChannel_result (broker (client c)) = inr e ->
     fst (Async c w) = Ret (None, Some e) /\
     trace (snd (Async c w)) = trace w).
Proof.
  split.
  - intros ch Hch. rewrite (Async_run c w ch Hch). cbv zeta. simpl.
    rewrite closed_channels_app. simpl. split; [reflexivity|].
    eexists (trace w ++ [_; _]). rewrite <- app_assoc. simpl.
    split; [reflexivity|]. rewrite !published_app. reflexivity.
  - intros e He. rewrite (Async_no_channel c w e He). cbv zeta. simpl.
    split; reflexivity.
Qed.

Lemma Async_closes_its_channel_witness :
  closed_channels (trace (snd (Async (newCall broken_client "add") empty_world)))
    = [2%nat] /\
  trace (snd (Async (newCall offline_client "add") empty_world)) = [].
Proof.
  destruct (Async_closes_its_channel (newCall broken_client "add") empty_world)
    as [H _].
  destruct (Async_closes_its_channel (newCall offline_client "add") empty_world)
    as [_ H'].
  split; [exact (proj1 (H closed_channel eq_refl))|].
  exact (proj2 (H' (amqp_Error "connection refused") eq_refl)).
Defined.

(** X6: [client.Async] works on the client's shared channel and never
    closes it. *)
Theorem client_Async_keeps_channel_open (c : call) (w : World) (ch : Channel) :
  channel (client c) = Some ch ->
  closed_channels (trace (snd (client_Async c w))) = closed_channels (trace w).
Proof.
  intros Hch. rewrite (client_Async_run c w ch Hch). cbv zeta. simpl.
  rewrite closed_channels_app. simpl. apply app_nil_r.
Qed.

Lemma client_Async_keeps_channel_open_witness :
  closed_channels (trace (snd (client_Async (newCall broken_client "add")
                                 empty_world))) = [].
Proof.
  exact (client_Async_keeps_channel_open (newCall broken_client "add")
           empty_world closed_channel eq_refl).
Defined.

(** X7: a [Sync] call whose request could not be sent (no channel from the
    broker, or a failed publish) returns that error at once: no time is
    spent waiting, whatever the reply consumer would have delivered. *)
Theorem Sync_unsent_returns_at_once (c : call) (a : Arrival) (tie : bool)
    (w : World) (e : error) :
  (openChannel_result (broker (client c)) = inr e \/
   exists ch, openChannel_result (broker (client c)) = inl ch /\
     forall msg, publish_result ch (serviceName (client c)) msg = Some e) ->
  fst (Sync c a tie w) = Ret (None, Some e) /\
  clock (snd (Sync c a tie w)) = clock w.
Proof.
  intros [Hno|(ch & Hch & He)].
  - unfold Sync, bind. rewrite (Async_no_channel c w e Hno). cbv zeta. simpl.
    split; reflexivity.
  - rewrite (Sync_run c a tie w ch Hch). cbv zeta. rewrite He.
    rewrite (Async_run c w ch Hch). cbv zeta. simpl. split; reflexivity.
Qed.

Lemma Sync_unsent_returns_at_once_witness :
  fst (Sync (newCall offline_client "add")
         (ReplyAfter 0 (mkClientResponse [] "" ∅)) true empty_world)
    = Ret (None, Some (amqp_Error "connection refused")).
Proof.
  exact (proj1 (Sync_unsent_returns_at_once (newCall offline_client "add")
                  (ReplyAfter 0 (mkClientResponse [] "" ∅)) true empty_world
                  (amqp_Error "connection refused") (or_introl eq_refl))).
Defined.

(* ===================================================================== *)
(** ** Further properties: request dispatch *)
(* ===================================================================== *)

(** The request a dispatch task builds from a delivery. *)
Lemma processRequest_found (s : server) (d : Delivery) (w : World)
    (m : string) (method : MethodHandler) :
  d_Headers d !! "X-Method" = Some (VString m) ->
  methods s !! m = Some method ->
  processRequest s d w =
    (r <- openChannel (srv_broker s) ;;
     match snd r with
     | Some err => log LError "Error opening channel for response: '%s'" [Error err]
     | None => ret tt
     end ;;;
     defer (Close (fst r))
       (res <- method (mkRequest (srv_serviceName s) m (d_ContentType d) (d_Body d))
                 newResponse ;;
        wr <- Write (mkResponseWriter (fst r) (autoAck s) d) res ;;
        match snd wr with
        | Some err => log LError "Error writing response: '%s'" [Error err]
        | None => ret tt
        end)) w.
Proof.
  intros Hm Hf. unfold processRequest. rewrite Hm. cbv beta iota.
  unfold MethodHandler in *. rewrite Hf. reflexivity.
Qed.

(** A dispatch task that finds its handler, gets a reply channel and whose
    handler returns. *)
Lemma processRequest_run (s : server) (d : Delivery) (w w1 : World)
    (m : string) (method : MethodHandler) (ch : Channel) (res : Response) :
  d_Headers d !! "X-Method" = Some (VString m) ->
  methods s !! m = Some method ->
  openChannel_result (srv_broker s) = inl ch ->
  method (mkRequest (srv_serviceName s) m (d_ContentType d) (d_Body d))
    newResponse w = (Ret res, w1) ->
  let msg := response_message (mkResponseWriter (Some ch) (autoAck s) d)
               (with_status_header res) in
  processRequest s d w =
    (Ret tt,
     mkWorld
       (trace w1 ++
        [EvLog LDebug "Sending response to queue '%s'. Slot: '%d'"
           [d_ReplyTo d; d_CorrelationId d];
         EvPublish (chan_id ch) "" (d_ReplyTo d) false false msg] ++
        (match publish_result ch (d_ReplyTo d) msg with
         | Some e => [EvLog LError "Error writing response: '%s'" [Error e]]
         | None =>
             if autoAck s then []
             else [EvAck (d_DeliveryTag d) false;
                   EvLog LDebug "Ack from slot '%d'" [d_CorrelationId d]]
         end) ++
        [EvClose (chan_id ch)])
       (clock w1) (slots w1) (extensions w1)).
Proof.
  intros Hm Hf Hch Hrun. cbv zeta.
  rewrite (processRequest_found s d w m method Hm Hf).
  unfold openChannel. rewrite Hch. unfold bind at 1. unfold ret at 1.
  cbv beta iota. simpl snd. simpl fst. cbv beta iota.
  unfold bind at 1. unfold ret at 1. cbv beta iota.
  unfold defer. unfold bind at 1. rewrite Hrun.
  unfold bind at 1.
  rewrite (Write_run (mkResponseWriter (Some ch) (autoAck s) d) res w1 ch eq_refl).
  cbv zeta. simpl.
  destruct (publish_result ch _ _); [|destruct (autoAck s)];
    run_M; rewrite <- ?app_assoc; reflexivity.
Qed.

(** X8: a delivery for a registered method, with a broker that hands out a
    reply channel and a handler that returns.  The handler is called with
    the request built from the delivery (service name, method name, content
    type, body) and an empty Response.  Then one message is published to
    the delivery's reply-to with its correlation ID; the delivery is
    acknowledged once if the publish succeeded and auto-ack is off; a
    publish error is logged and leaves the delivery unacknowledged; and in
    every case the reply channel is closed last and the task returns. *)
Theorem processRequest_serves (s : server) (d : Delivery) (w w1 : World)
    (m : string) (method : MethodHandler) (ch : Channel) (res : Response) :
  d_Headers d !! "X-Method" = Some (VString m) ->
  methods s !! m = Some method ->
  openChannel_result (srv_broker s) = inl ch ->
  method (mkRequest (srv_serviceName s) m (d_ContentType d) (d_Body d))
    newResponse w = (Ret res, w1) ->
  exists msg,
    processRequest s d w =
      (Ret tt,
       mkWorld
         (trace w1 ++
          [EvLog LDebug "Sending response to queue '%s'. Slot: '%d'"
             [d_ReplyTo d; d_CorrelationId d];
           EvPublish (chan_id ch) "" (d_ReplyTo d) false false msg] ++
          (match publish_result ch (d_ReplyTo d) msg with
           | Some e => [EvLog LError "Error writing response: '%s'" [Error e]]
           | None =>
               if autoAck s then []
               else [EvAck (d_DeliveryTag d) false;
                     EvLog LDebug "Ack from slot '%d'" [d_CorrelationId d]]
           end) ++
          [EvClose (chan_id ch)])
         (clock w1) (slots w1) (extensions w1)) /\
    CorrelationId msg = d_CorrelationId d /\
    Headers msg !! "statusCode" = Some (VInt16 (res_statusCode res)) /\
    ContentType msg = res_contentType res /\
    Body msg = res_content res.
Proof.
  intros Hm Hf Hch Hrun.
  exists (response_message (mkResponseWriter (Some ch) (autoAck s) d)
            (with_status_header res)).
  split; [exact (processRequest_run s d w w1 m method ch res Hm Hf Hch Hrun)|].
  split; [reflexivity|]. split; [apply lookup_insert_eq|]. split; reflexivity.
Qed.

Lemma processRequest_serves_witness :
  fst (processRequest calc_server delivery_add empty_world) = Ret tt /\
  acked (trace (snd (processRequest calc_server delivery_add empty_world))) = [1%N] /\
  closed_channels (trace (snd (processRequest calc_server delivery_add empty_world)))
    = [1%nat].
Proof.
  destruct (processRequest_serves calc_server delivery_add empty_world
              (snd (effective_handler add_handler
                      (mkRequest "calc" "add" "application/json" []) newResponse
                      empty_world))
              "add" (effective_handler add_handler) open_channel
              (mkResponse [] "application/json" 200 (mkHeaders ∅))
              eq_refl eq_refl eq_refl eq_refl) as (msg & Hrun & _).
  rewrite Hrun. vm_compute. repeat split.
Defined.

(** X9: when the handler panics, the task publishes no response and does
    not acknowledge the delivery; the deferred close of the reply channel
    still runs; and the panic, which nothing recovers, ends the server
    process. *)
Theorem processRequest_handler_panic (s : server) (d : Delivery) (w w1 : World)
    (m : string) (method : MethodHandler) (ch : Channel) (v : PanicValue) :
  d_Headers d !! "X-Method" = Some (VString m) ->
  methods s !! m = Some method ->
  openChannel_result (srv_broker s) = inl ch ->
  method (mkRequest (srv_serviceName s) m (d_ContentType d) (d_Body d))
    newResponse w = (Panic v, w1) ->
  let w' := mkWorld (trace w1 ++ [EvClose (chan_id ch)]) (clock w1) (slots w1)
              (extensions w1) in
  processRequest s d w = (Panic v, w') /\
  published (trace w') = published (trace w1) /\
  acked (trace w') = acked (trace w1) /\
  forall rest, serve_requests s (d :: rest) w = (Crashed v, w').
Proof.
  intros Hm Hf Hch Hrun. cbv zeta.
  assert (H : processRequest s d w =
              (Panic v,
               mkWorld (trace w1 ++ [EvClose (chan_id ch)]) (clock w1) (slots w1)
                 (extensions w1))).
  { rewrite (processRequest_found s d w m method Hm Hf).
    unfold openChannel. rewrite Hch. unfold bind at 1. unfold ret at 1.
    cbv beta iota. simpl snd. simpl fst. cbv beta iota.
    unfold bind at 1. unfold ret at 1. cbv beta iota.
    unfold defer. unfold bind at 1. rewrite Hrun. run_M. reflexivity. }
  split; [exact H|]. simpl.
  rewrite published_app, acked_app. simpl. rewrite !app_nil_r.
  split; [reflexivity|]. split; [reflexivity|].
  intros rest. simpl. unfold go. rewrite H. reflexivity.
Qed.

Lemma processRequest_handler_panic_witness :
  fst (serve_requests
         (Register (mkServer (mkBroker (inl open_channel)) "calc" ∅ false)
            "div" failing_handler)
         [mkDelivery {[ "X-Method" := VString "div" ]} "" "21" "amq.gen-1" 5 [];
          delivery_add]
         empty_world) = Crashed (PanicUser "division by zero").
Proof.
  pose proof (processRequest_handler_panic
    (Register (mkServer (mkBroker (inl open_channel)) "calc" ∅ false)
       "div" failing_handler)
    (mkDelivery {[ "X-Method" := VString "div" ]} "" "21" "amq.gen-1" 5 [])
    empty_world
    (snd (effective_handler failing_handler (mkRequest "calc" "div" "" [])
            newResponse empty_world))
    "div" (effective_handler failing_handler) open_channel
    (PanicUser "division by zero") eq_refl eq_refl eq_refl eq_refl) as H.
  cbv zeta in H. destruct H as (_ & _ & _ & H).
  rewrite (H [delivery_add]). reflexivity.
Defined.



(* ===================================================================== *)
(** ** Further properties: the serve loop, the registry, the pipeline *)
(* ===================================================================== *)






(** X13: [Register] only touches the entry of the name it is given.
    Other names keep their handlers, a second registration under the same
    name replaces the first, registrations under different names can be
    made in either order, and service name, broker and auto-ack mode are
    left alone. *)
Theorem Register_lookup (s : server) (m m' : string) (h h' : UserHandler) :
  (m <> m' -> methods (Register s m h) !! m' = methods s !! m') /\
  Register (Register s m h) m h' = Register s m h' /\
  (m <> m' ->
     Register (Register s m h) m' h' = Register (Register s m' h') m h) /\
  srv_serviceName (Register s m h) = srv_serviceName s /\
  srv_broker (Register s m h) = srv_broker s /\
  autoAck (Register s m h) = autoAck s.
Proof.
  split; [|split; [|split]]; [| | |repeat split].
  - intros Hne. simpl. apply lookup_insert_ne, Hne.
  - unfold Register. simpl. f_equal. apply insert_insert_eq.
  - intros Hne. unfold Register. simpl. f_equal. apply insert_insert_ne.
    congruence.
Qed.

Lemma Register_lookup_witness :
  methods (Register calc_server "sub" add_handler) !! "add"
    = methods calc_server !! "add".
Proof.
  exact (proj1 (Register_lookup calc_server "sub" "add" add_handler add_handler)
           ltac:(discriminate)).
Defined.

(** Hooks of a list of extensions in which the first to fail is known. *)
Lemma range_IncomingRequest_panic (pre post : list Extension) (ext : Extension)
    (req : Request) (v : PanicValue) :
  Forall incoming_returns pre ->
  fst (IncomingRequest ext req) = Panic v ->
  forall w, exists dt : N,
    range_IncomingRequest (pre ++ ext :: post) req w =
      (Panic v,
       mkWorld
         (trace w ++
          map (fun e => EvIncomingRequest (ext_name e) req) (pre ++ [ext]))
         (clock w + Z.of_N dt) (slots w) (extensions w)).
Proof.
  intros Hpre Hv. induction Hpre as [|e pre He _ IH]; intros w.
  - simpl. run_M. destruct (IncomingRequest ext req) as [o n]. simpl in *.
    subst o. exists n. reflexivity.
  - simpl. run_M. specialize (He req).
    destruct (IncomingRequest e req) as [o n]. simpl in *. subst o.
    match goal with
    | |- context [range_IncomingRequest (pre ++ ext :: post) req ?w'] =>
        destruct (IH w') as [dt ->]
    end.
    exists (n + dt)%N. simpl. rewrite <- app_assoc. simpl.
    f_equal. f_equal. lia.
Qed.

(** X14: if the [IncomingRequest] hook of an extension panics, the hooks of
    the extensions before it have run, and neither the hooks of the
    extensions after it, nor the user handler, nor any [OutgoingResponse]
    hook is called; the panic leaves the wrapped handler. *)
Theorem effective_handler_incoming_panic (handler : UserHandler)
    (pre post : list Extension) (ext : Extension) (req : Request)
    (res : Response) (v : PanicValue) (w : World) :
  extensions w = pre ++ ext :: post ->
  Forall incoming_returns pre ->
  fst (IncomingRequest ext req) = Panic v ->
  fst (effective_handler handler req res w) = Panic v /\
  hooks (trace (snd (effective_handler handler req res w))) =
    hooks (trace w) ++ map (fun e => HookIncoming (ext_name e)) (pre ++ [ext]).
Proof.
  intros Hexts Hpre Hv.
  assert (H : exists dt : N,
    effective_handler handler req res w =
      (Panic v,
       mkWorld
         (trace w ++
          map (fun e => EvIncomingRequest (ext_name e) req) (pre ++ [ext]))
         (clock w + Z.of_N dt) (slots w) (extensions w))).
  { unfold effective_handler, pipeThroughIncomingExtensions.
    unfold bind at 1. cbv beta. rewrite Hexts.
    destruct (range_IncomingRequest_panic pre post ext req v Hpre Hv w)
      as [dt ->].
    exists dt. rewrite Hexts. reflexivity. }
  destruct H as [dt ->]. cbv [fst snd trace].
  rewrite hooks_app, hooks_incoming. split; reflexivity.
Qed.

Lemma effective_handler_incoming_panic_witness :
  hooks (trace (snd (effective_handler add_handler add_request newResponse
     (mkWorld [] 0 ∅
        [observer "metrics"; failing_extension "auth"; observer "access-log"]))))
  = [HookIncoming "metrics"; HookIncoming "auth"].
Proof.
  exact (proj2 (effective_handler_incoming_panic add_handler
    [observer "metrics"] [observer "access-log"] (failing_extension "auth")
    add_request newResponse (PanicUser "hook failed")
    (mkWorld [] 0 ∅
       [observer "metrics"; failing_extension "auth"; observer "access-log"])
    eq_refl ltac:(repeat constructor) eq_refl)).
Defined.

(** X15: if the user handler panics, every [IncomingRequest] hook has run
    and no [OutgoingResponse] hook is called: extensions do not see the
    outcome of a request whose handler failed. *)
Theorem effective_handler_handler_panic (handler : UserHandler) (req : Request)
    (res : Response) (v : PanicValue) (w : World) :
  Forall incoming_returns (extensions w) ->
  fst (handler req res) = Panic v ->
  fst (effective_handler handler req res w) = Panic v /\
  hooks (trace (snd (effective_handler handler req res w))) =
    hooks (trace w) ++
    map (fun e => HookIncoming (ext_name e)) (extensions w) ++ [HookHandler] /\
  outgoing_arguments (trace (snd (effective_handler handler req res w))) =
    outgoing_arguments (trace w).
Proof.
  intros Hin Hv.
  assert (H : exists dt : N,
    effective_handler handler req res w =
      (Panic v,
       mkWorld
         (trace w ++
          map (fun e => EvIncomingRequest (ext_name e) req) (extensions w) ++
          [EvHandler req res])
         (clock w + Z.of_N dt) (slots w) (extensions w))).
  { unfold effective_handler, pipeThroughIncomingExtensions.
    destruct (range_IncomingRequest_run (extensions w) req Hin w) as [dt Hrun].
    unfold bind at 1. cbv beta. rewrite Hrun. run_M.
    destruct (handler req res) as [o n]. simpl in *. subst o.
    exists (dt + n)%N. rewrite <- app_assoc. f_equal. f_equal. lia. }
  destruct H as [dt ->]. cbv [fst snd trace].
  rewrite !hooks_app, !outgoing_arguments_app, hooks_incoming,
    outgoing_arguments_incoming.
  split; [reflexivity|]. split; [reflexivity|]. apply app_nil_r.
Qed.

Lemma effective_handler_handler_panic_witness :
  hooks (trace (snd (effective_handler failing_handler add_request newResponse
                       observed_world))) =
  [HookIncoming "metrics"; HookIncoming "access-log"; HookHandler].
Proof.
  exact (proj1 (proj2 (effective_handler_handler_panic failing_handler
    add_request newResponse (PanicUser "division by zero") observed_world
    ltac:(repeat constructor) eq_refl))).
Defined.

(** X16: the wrapped handler reads the extension list when it runs, not
    when it was registered: an extension added after [Register] is called
    around the method all the same, after the extensions added before it,
    on the way in and on the way out. *)
Theorem AddExtension_after_Register (s : server) (m : string)
    (handler : UserHandler) (ext : Extension) (req : Request)
    (res res1 : Response) (w : World) :
  Forall incoming_returns (extensions w ++ [ext]) ->
  Forall outgoing_returns (extensions w ++ [ext]) ->
  fst (handler req res) = Ret res1 ->
  exists (f : MethodHandler) (res2 : Response) (w' : World),
    methods (Register s m handler) !! m = Some f /\
    (AddExtension ext ;;; f req res) w = (Ret res2, w') /\
    hooks (trace w') =
      hooks (trace w) ++
      map (fun e => HookIncoming (ext_name e)) (extensions w) ++
      [HookIncoming (ext_name ext); HookHandler] ++
      map (fun e => HookOutgoing (ext_name e)) (extensions w) ++
      [HookOutgoing (ext_name ext)].
Proof.
  intros Hin Hout Hh.
  destruct (effective_handler_run handler req res res1
              (mkWorld (trace w) (clock w) (slots w) (extensions w ++ [ext]))
              Hin Hout Hh)
    as (res2 & evs & dt & Hrun & Hhooks & _).
  simpl in Hrun, Hhooks.
  exists (effective_handler handler), res2. eexists.
  split; [apply lookup_insert_eq|].
  split; [unfold bind, AddExtension; exact Hrun|].
  cbv [trace].
  rewrite !hooks_app, hooks_incoming.
  change (hooks (EvHandler req res :: evs)) with (HookHandler :: hooks evs).
  rewrite Hhooks, !map_app. simpl.
  rewrite <- !app_assoc. reflexivity.
Qed.

Lemma AddExtension_after_Register_witness :
  exists (f : MethodHandler) (w' : World),
    methods calc_server !! "add" = Some f /\
    (exists res2,
       (AddExtension (observer "tracing") ;;; f add_request newResponse)
         observed_world = (Ret res2, w')) /\
    hooks (trace w') =
      [HookIncoming "metrics"; HookIncoming "access-log"; HookIncoming "tracing";
       HookHandler;
       HookOutgoing "metrics"; HookOutgoing "access-log"; HookOutgoing "tracing"].
Proof.
  destruct (AddExtension_after_Register
              (mkServer (mkBroker (inl open_channel)) "calc" ∅ false)
              "add" add_handler (observer "tracing") add_request newResponse
              (mkResponse [] "application/json" 200 (mkHeaders ∅))
              observed_world)
    as (f & res2 & w' & Hf & Hrun & Hhooks).
  - repeat constructor.
  - repeat constructor; intros req res el st; eexists; reflexivity.
  - reflexivity.
  - exists f, w'. split; [exact Hf|]. split; [exists res2; exact Hrun|].
    exact Hhooks.
Defined.

(* ===================================================================== *)
(** ** Further properties: Response setters and writers *)
(* ===================================================================== *)

(** X17: what [Raw] is given is what the writer of server/response.go puts
    on the wire: the body and content type unchanged, the status code as
    the only header, the delivery's correlation ID, routed to its
    reply-to. *)
Theorem Raw_then_Write (r : Response) (code : Z) (ct : string) (b : bytes)
    (rw : responseWriter) (w : World) (ch : Channel) :
  rw_channel rw = Some ch ->
  exists r' msg,
    Response_Raw r code ct (Some b) = Ret r' /\
    published (trace (snd (ResponseWriter_Write rw r' w))) =
      published (trace w) ++ [msg] /\
    routing_keys (trace (snd (ResponseWriter_Write rw r' w))) =
      routing_keys (trace w) ++ [d_ReplyTo (rw_delivery rw)] /\
    Body msg = b /\ ContentType msg = ct /\
    Headers msg = {[ "statusCode" := VInt16 code ]} /\
    CorrelationId msg = d_CorrelationId (rw_delivery rw).
Proof.
  intros Hch. eexists. eexists. split; [reflexivity|].
  rewrite (ResponseWriter_Write_run rw _ w ch Hch). cbv zeta. simpl.
  rewrite !published_app, !routing_keys_app. simpl.
  split; [|split].
  - f_equal. destruct (publish_result ch _ _); [|destruct (rw_autoAck rw)];
      reflexivity.
  - f_equal. destruct (publish_result ch _ _); [|destruct (rw_autoAck rw)];
      reflexivity.
  - repeat split.
Qed.

Lemma Raw_then_Write_witness :
  map Body (published (trace (snd (ResponseWriter_Write bound_writer
     (mkResponse [Byte.x68; Byte.x69] "text/plain" 200 (mkHeaders ∅))
     empty_world)))) = [[Byte.x68; Byte.x69]].
Proof.
  destruct (Raw_then_Write newResponse 200 "text/plain" [Byte.x68; Byte.x69]
              bound_writer empty_world open_channel eq_refl)
    as (r' & msg & Hr & Hp & _ & Hb & _).
  injection Hr as <-. rewrite Hp. simpl. rewrite Hb. reflexivity.
Defined.

(** X18: [Empty] replaces the status code and nothing else.  Called after
    [Raw] it does not clear the Response: the body and content type given
    to [Raw] are still sent, under the new status code. *)
Theorem Empty_keeps_content (r : Response) (code code' : Z) (ct : string)
    (b : bytes) (rw : responseWriter) (w : World) (ch : Channel) :
  rw_channel rw = Some ch ->
  exists r' msg,
    Response_Raw r code ct (Some b) = Ret r' /\
    published (trace (snd (ResponseWriter_Write rw (Response_Empty r' code') w))) =
      published (trace w) ++ [msg] /\
    Body msg = b /\ ContentType msg = ct /\
    Headers msg !! "statusCode" = Some (VInt16 code') /\
    Response_Empty (Response_Empty r code) code' = Response_Empty r code'.
Proof.
  intros Hch. eexists. eexists. split; [reflexivity|].
  rewrite (ResponseWriter_Write_run rw _ w ch Hch). cbv zeta. simpl.
  rewrite !published_app. simpl. split.
  - f_equal. destruct (publish_result ch _ _); [|destruct (rw_autoAck rw)];
      reflexivity.
  - split; [reflexivity|]. split; [reflexivity|].
    split; [apply lookup_singleton_eq|reflexivity].
Qed.

Lemma Empty_keeps_content_witness :
  exists msg,
    published (trace (snd (ResponseWriter_Write bound_writer
       (Response_Empty (mkResponse [Byte.x68] "text/plain" 200 (mkHeaders ∅)) 204)
       empty_world))) = [msg] /\
    Body msg = [Byte.x68].
Proof.
  destruct (Empty_keeps_content newResponse 200 204 "text/plain" [Byte.x68]
              bound_writer empty_world open_channel eq_refl)
    as (r' & msg & Hr & Hp & Hb & _).
  injection Hr as <-. exists msg. split; [exact Hp|exact Hb].
Defined.

(** X19: [Raw] panics exactly when its content is [nil]; an empty slice
    that is not [nil] is accepted.  [JSON] panics exactly when its content
    is [nil] or cannot be encoded, and otherwise stores the encoding under
    the content type application/json.  Neither changes the headers. *)
Theorem Response_setters_panic (interface : Type)
    (json_Marshal : interface -> bytes * option error) (r : Response)
    (code : Z) (ct : string) (content : option bytes)
    (value : option interface) :
  ((exists v, Response_Raw r code ct content = Panic v) <-> content = None) /\
  (forall b, content = Some b ->
     Response_Raw r code ct content = Ret (mkResponse b ct code (res_headers r))) /\
  ((exists v, Response_JSON interface json_Marshal r code value = Panic v) <->
     (value = None \/ exists x e, value = Some x /\ snd (json_Marshal x) = Some e)) /\
  (forall x, value = Some x -> snd (json_Marshal x) = None ->
     Response_JSON interface json_Marshal r code value =
       Ret (mkResponse (fst (json_Marshal x)) "application/json" code
              (res_headers r))).
Proof.
  split; [|split; [|split]].
  - destruct content; simpl; split.
    + intros [v [=]].
    + intros [=].
    + reflexivity.
    + intros _. eexists. reflexivity.
  - intros b ->. reflexivity.
  - destruct value as [x|]; simpl.
    + destruct (snd (json_Marshal x)) as [e|] eqn:E; split.
      * intros _. right. exists x, e. split; [reflexivity|exact E].
      * intros _. eexists. reflexivity.
      * intros [v [=]].
      * intros [[=]|(x' & e & [= <-] & He)]. congruence.
    + split; [intros _; left; reflexivity|intros _; eexists; reflexivity].
  - intros x -> Hx. simpl. rewrite Hx. reflexivity.
Qed.

Lemma Response_setters_panic_witness :
  Response_Raw newResponse 200 "text/plain" (Some []) =
    Ret (mkResponse [] "text/plain" 200 (mkHeaders ∅)) /\
  Response_JSON GoValue sample_Marshal newResponse 200 (Some (slice_of [])) =
    Ret (mkResponse [Byte.x5b; Byte.x5d] "application/json" 200 (mkHeaders ∅)).
Proof.
  destruct (Response_setters_panic GoValue sample_Marshal newResponse 200
              "text/plain" (Some []) (Some (slice_of [])))
    as (_ & Hraw & _ & Hjson).
  split; [exact (Hraw [] eq_refl)|exact (Hjson (slice_of []) eq_refl eq_refl)].
Defined.

(** X20: the later writer sends the Response's own headers.  Every header
    the handler set under another name than "statusCode" is published as
    it is, and a "statusCode" header set by the handler is overwritten by
    the Response's status code. *)
Theorem Write_passes_headers (rw : responseWriter) (res : Response) (w : World)
    (ch : Channel) :
  rw_channel rw = Some ch ->
  exists msg,
    published (trace (snd (Write rw res w))) = published (trace w) ++ [msg] /\
    (forall k, k <> "statusCode" ->
       Headers msg !! k = asMap (res_headers res) !! k) /\
    Headers msg !! "statusCode" = Some (VInt16 (res_statusCode res)).
Proof.
  intros Hch.
  exists (response_message rw (with_status_header res)).
  rewrite (Write_run rw res w ch Hch). cbv zeta. simpl.
  rewrite !published_app. simpl. split; [|split].
  - f_equal. destruct (publish_result ch _ _); [|destruct (rw_autoAck rw)];
      reflexivity.
  - intros k Hk. apply lookup_insert_ne. congruence.
  - apply lookup_insert_eq.
Qed.

Lemma Write_passes_headers_witness :
  exists msg,
    published (trace (snd (Write bound_writer
       (mkResponse [] "text/plain" 201
          (mkHeaders {[ "statusCode" := VString "teapot";
                        "X-Request-Id" := VString "abc" ]}))
       empty_world))) = [msg] /\
    Headers msg !! "X-Request-Id" = Some (VString "abc") /\
    Headers msg !! "statusCode" = Some (VInt16 201).
Proof.
  destruct (Write_passes_headers bound_writer
              (mkResponse [] "text/plain" 201
                 (mkHeaders {[ "statusCode" := VString "teapot";
                               "X-Request-Id" := VString "abc" ]}))
              empty_world open_channel eq_refl) as (msg & Hp & Hk & Hs).
  exists msg. split; [exact Hp|]. split; [|exact Hs].
  rewrite (Hk "X-Request-Id") by discriminate. reflexivity.
Defined.

(* ===================================================================== *)
(** ** Further properties: topology setup and construction *)
(* ===================================================================== *)

Section TopologyProperties.

Variable QueueDeclare_error :
  Channel -> string -> bool -> bool -> bool -> bool -> option error.
Variable Consume_result :
  Channel -> string -> string -> bool -> bool -> bool -> bool ->
  option (list Delivery) * option error.

(** X21: [setupTopology] opens a channel, declares a durable queue named
    after the service (not auto-deleted, not exclusive) and consumes from
    it with the server's auto-ack flag, on that channel.  When all three
    succeed it returns no error, the topology is set, the server holds the
    new channel and the consumer's request channel, and nothing has been
    closed. *)
Theorem setupTopology_success (s : server) (t : Topology) (w : World)
    (ch : Channel) (rc : option (list Delivery)) :
  openChannel_result (srv_broker s) = inl ch ->
  QueueDeclare_error ch (srv_serviceName s) true false false false = None ->
  Consume_result ch (srv_serviceName s) "" (autoAck s) false false false
    = (rc, None) ->
  setupTopology QueueDeclare_error Consume_result s t w =
    (Ret (mkTopology (Some ch) rc true, None), w).
Proof.
  intros Hch Hq Hc. unfold setupTopology. run_M. rewrite Hch. simpl.
  rewrite Hq, Hc. reflexivity.
Qed.

(** X22: [setupTopology] always returns.  If it returns an error, the
    [topologySet] flag keeps the value it had (it is not cleared), and the
    channel the call opened, if any, has been closed, once: no channel is
    left open by a failed setup.  If it returns no error, the flag is set
    and nothing was closed. *)
Theorem setupTopology_failure_cleans_up (s : server) (t : Topology) (w : World) :
  exists t' err w',
    setupTopology QueueDeclare_error Consume_result s t w = (Ret (t', err), w') /\
    (err = None ->
       topologySet t' = true /\ is_Some (topo_channel t') /\ w' = w) /\
    (err <> None ->
       topologySet t' = topologySet t /\
       closed_channels (trace w') =
         closed_channels (trace w) ++
         match topo_channel t' with
         | Some ch => [chan_id ch]
         | None => []
         end).
Proof.
  unfold setupTopology. run_M.
  destruct (openChannel_result (srv_broker s)) as [ch|e]; simpl.
  - destruct (QueueDeclare_error ch _ _ _ _ _) as [e|]; simpl.
    + do 3 eexists. split; [reflexivity|]. split; [intros [=]|].
      intros _. simpl. rewrite closed_channels_app. split; reflexivity.
    + destruct (Consume_result ch _ _ _ _ _ _) as [rc [e|]]; simpl.
      * do 3 eexists. split; [reflexivity|]. split; [intros [=]|].
        intros _. simpl. rewrite closed_channels_app. split; reflexivity.
      * do 3 eexists. split; [reflexivity|]. split; [|intros H; congruence].
        intros _. simpl. split; [reflexivity|]. split; [eauto|].
        destruct w; reflexivity.
  - do 3 eexists. split; [reflexivity|]. split; [intros [=]|].
    intros _. simpl. rewrite app_nil_r. split; [reflexivity|].
    destruct w; reflexivity.
Qed.

(** [setupTopology] always returns; without an error the topology is set
    and the world is untouched. *)
Lemma setupTopology_returns (s : server) (t : Topology) (w : World) :
  exists t' err w',
    setupTopology QueueDeclare_error Consume_result s t w = (Ret (t', err), w') /\
    (err = None -> topologySet t' = true /\ w' = w).
Proof.
  unfold setupTopology. run_M.
  destruct (openChannel_result (srv_broker s)) as [ch|e]; simpl.
  - destruct (QueueDeclare_error ch _ _ _ _ _) as [e|]; simpl.
    + do 3 eexists. split; [reflexivity|]. intros [=].
    + destruct (Consume_result ch _ _ _ _ _ _) as [rc [e|]]; simpl.
      * do 3 eexists. split; [reflexivity|]. intros [=].
      * do 3 eexists. split; [reflexivity|]. intros _.
        split; [reflexivity|]. destruct w; reflexivity.
  - do 3 eexists. split; [reflexivity|]. intros [=].
Qed.

(** X23: [NewServer] returns a server or an error, never both and never
    neither, and the error is the one of [setupTopology] on a server built
    from the arguments.  The server it returns has the given service name,
    broker and auto-ack option, no registered method, and its topology
    set. *)
Theorem NewServer_result (b : Broker) (name : string) (options : Options)
    (w : World) :
  exists r w' t',
    NewServer QueueDeclare_error Consume_result b name options w = (Ret r, w') /\
    setupTopology QueueDeclare_error Consume_result
      (mkServer b name ∅ (AutoAck options)) (mkTopology None None false) w
      = (Ret (t', snd r), w') /\
    (fst r = None <-> snd r <> None) /\
    (forall s topo, fst r = Some (s, topo) ->
       srv_serviceName s = name /\ srv_broker s = b /\
       autoAck s = AutoAck options /\ methods s = ∅ /\
       topo = t' /\ topologySet topo = true /\ w' = w).
Proof.
  destruct (setupTopology_returns
              (mkServer b name ∅ (AutoAck options))
              (mkTopology None None false) w)
    as (t' & err & w' & Hrun & Hok).
  unfold NewServer, bind. rewrite Hrun. simpl.
  destruct err as [e|]; simpl.
  - exists (None, Some e), w', t'. split; [reflexivity|]. split; [reflexivity|].
    split; [split; [discriminate|reflexivity]|]. intros s topo [=].
  - destruct (Hok eq_refl) as (Hset & ->).
    eexists (Some (_, t'), None), w, t'. split; [reflexivity|].
    split; [reflexivity|]. simpl.
    split; [split; [discriminate|intros H; congruence]|].
    intros s topo [= <- <-]. repeat split. exact Hset.
Qed.

End TopologyProperties.

Lemma setupTopology_success_witness :
  setupTopology declare_ok consume_ok calc_server (mkTopology None None false)
    empty_world =
  (Ret (mkTopology (Some open_channel) (Some [delivery_add]) true, None),
   empty_world).
Proof.
  exact (setupTopology_success declare_ok consume_ok calc_server
           (mkTopology None None false) empty_world open_channel
           (Some [delivery_add]) eq_refl eq_refl eq_refl).
Defined.

Lemma setupTopology_failure_cleans_up_witness :
  exists t' err w',
    setupTopology declare_ok consume_refused calc_server
      (mkTopology None None true) empty_world = (Ret (t', err), w') /\
    err = Some (amqp_Error "not found") /\
    topologySet t' = true /\ closed_channels (trace w') = [1%nat].
Proof.
  destruct (setupTopology_failure_cleans_up declare_ok consume_refused
              calc_server (mkTopology None None true) empty_world)
    as (t' & err & w' & Hrun & _ & Hfail).
  exists t', err, w'. split; [exact Hrun|].
  vm_compute in Hrun. injection Hrun as <- <- <-.
  repeat split.
Defined.

Section SpecProperties.

Variable Spec : Type.

(** X24: [RegisterWithSpec] registers the handler like [Register] and files
    the spec under the method name: [GetSpecs] then returns it for that
    name, a later spec for the same name replaces it, and the specs of
    other names are left as they were. *)
Theorem RegisterWithSpec_lookup (s : server) (specs : gmap string Spec)
    (m m' : string) (handler handler' : UserHandler) (spec spec' : Spec) :
  let r := RegisterWithSpec Spec s specs m handler spec in
  fst r = Register s m handler /\
  GetSpecs Spec (snd r) !! m = Some spec /\
  (m' <> m -> GetSpecs Spec (snd r) !! m' = GetSpecs Spec specs !! m') /\
  GetSpecs Spec (snd (RegisterWithSpec Spec (fst r) (snd r) m handler' spec'))
    !! m = Some spec' /\
  methods (fst (RegisterWithSpec Spec (fst r) (snd r) m handler' spec')) !! m
    = Some (effective_handler handler').
Proof.
  cbv zeta. unfold RegisterWithSpec, GetSpecs. simpl.
  split; [reflexivity|]. split; [apply lookup_insert_eq|].
  split; [intros Hne; apply lookup_insert_ne; congruence|].
  split; apply lookup_insert_eq.
Qed.

End SpecProperties.

Lemma NewServer_result_witness :
  exists s topo,
    NewServer declare_ok consume_ok (mkBroker (inl open_channel)) "calc"
      (mkOptions false) empty_world = (Ret (Some (s, topo), None), empty_world) /\
    methods s = ∅ /\ topologySet topo = true.
Proof.
  destruct (NewServer_result declare_ok consume_ok (mkBroker (inl open_channel))
              "calc" (mkOptions false) empty_world)
    as (r & w' & t' & Hrun & _ & _ & Hs).
  vm_compute in Hrun. injection Hrun as <- <-.
  eexists. eexists. split; [reflexivity|].
  destruct (Hs _ _ eq_refl) as (_ & _ & _ & Hm & _ & Ht & _).
  split; [exact Hm|exact Ht].
Defined.

Lemma RegisterWithSpec_lookup_witness :
  GetSpecs string
    (snd (RegisterWithSpec string calc_server ∅ "add" add_handler "adds two numbers"))
    !! "add" = Some "adds two numbers".
Proof.
  exact (proj1 (proj2 (RegisterWithSpec_lookup string calc_server ∅ "add" "sub"
                         add_handler add_handler "adds two numbers" ""))).
Defined.

(* ===================================================================== *)
(** ** Further properties: a call from end to end *)
(* ===================================================================== *)

(** X25: the request [Async] publishes, delivered to a server that has a
    handler for the call's method, is answered to the caller: the handler
    is run on a request with the call's method, content type and body, and
    the one response the server publishes is routed to the client's
    response queue and carries the correlation ID of the Slot the caller
    waits on. *)
Theorem request_response_round_trip (c : call) (s : server) (w ws ws1 : World)
    (ch ch' : Channel) (tag : N) (handler : MethodHandler) (res : Response) :
  openChannel_result (broker (client c)) = inl ch ->
  methods s !! method c = Some handler ->
  openChannel_result (srv_broker s) = inl ch' ->
  handler (mkRequest (srv_serviceName s) (method c) (contentType c) (body c))
    newResponse ws = (Ret res, ws1) ->
  exists request reply,
    published (trace (snd (Async c w))) = published (trace w) ++ [request] /\
    published (trace (snd (processRequest s (deliver request tag) ws))) =
      published (trace ws1) ++ [reply] /\
    routing_keys (trace (snd (processRequest s (deliver request tag) ws))) =
      routing_keys (trace ws1) ++ [Name (responseQueue (client c))] /\
    CorrelationId reply = fresh (dom (slots w)) /\
    Body reply = res_content res /\
    Headers reply !! "statusCode" = Some (VInt16 (res_statusCode res)) /\
    (forall slot, fst (Async c w) = Ret (Some slot, None) ->
       CorrelationId reply = getCorrelationID slot).
Proof.
  intros Hch Hf Hch' Hrun.
  set (request := request_message c (FormatInt10 (getTimeoutMilliseconds c))
                    (fresh (dom (slots w)))).
  exists request.
  eexists. split; [apply (Async_published c w ch Hch)|].
  rewrite (processRequest_run s (deliver request tag) ws ws1 (method c) handler
             ch' res (lookup_singleton_eq _ _) Hf Hch' Hrun).
  cbv zeta. cbv [snd trace].
  rewrite !published_app, !routing_keys_app.
  split; [|split; [|split; [|split; [|split]]]].
  - simpl. f_equal.
    destruct (publish_result ch' _ _); [|destruct (autoAck s)]; reflexivity.
  - simpl. f_equal.
    destruct (publish_result ch' _ _); [|destruct (autoAck s)]; reflexivity.
  - reflexivity.
  - reflexivity.
  - apply lookup_insert_eq.
  - rewrite (Async_run c w ch Hch). cbv zeta. simpl.
    destruct (publish_result ch _ _); intros slot [= <-]. reflexivity.
Qed.

Lemma request_response_round_trip_witness :
  exists request reply,
    published (trace (snd (Async (newCall healthy_client "add") empty_world)))
      = [request] /\
    published (trace (snd (processRequest calc_server (deliver request 9)
                             observed_world))) = [reply] /\
    CorrelationId reply = fresh (dom (slots empty_world)).
Proof.
  destruct (request_response_round_trip (newCall healthy_client "add")
              calc_server empty_world observed_world
              (snd (effective_handler add_handler (mkRequest "calc" "add" "" [])
                      newResponse observed_world))
              open_channel open_channel 9 (effective_handler add_handler)
              (mkResponse [] "application/json" 200 (mkHeaders ∅))
              eq_refl eq_refl eq_refl eq_refl)
    as (request & reply & Hreq & Hrep & _ & Hc & _).
  exists request, reply. split; [exact Hreq|]. split; [|exact Hc].
  rewrite Hrep. reflexivity.
Defined.
